(** * Dutch COVID dashboard: the data preparation pipeline and the query layer

    A shallow embedding of [preparation.py] (class [DataManager]) and of the
    aggregation policy of [dashboard.py] (class [PlotTemplate]).

    Modelling conventions.
    - A pandas data frame is the list of its rows, in row order; a row is a
      record with one field per column.  A null cell (NaN) of a text or
      float column is [None].
    - Counts are mathematical integers: pandas holds them as 64-bit integers
      or floats, and the counts of the two national datasets stay many
      orders of magnitude below the range where either is inexact.
    - Text is a sequence of bytes (UTF-8); its order is the byte-wise
      lexicographic order, which is the code-point order Python compares by.
    - A date cell is the calendar date it denotes; the ordering of dates is
      the ordering of their ISO texts.
    - The folder of persisted CSV files is a finite map from a path to the
      table stored under it; reading a file gives the table last written.
    - Printing and raising are explicit: an operation of the query layer
      returns the lines it printed and either its value or the exception.
    - The sorting algorithm behind [sort_values] is not part of the program;
      it is a parameter, bound by what its documentation promises. *)

From stdpp Require Import base decidable option list sorting strings pretty gmap.
From Stdlib Require Import ZArith Lia Ascii String.

Local Open Scope Z_scope.

(** ** Python and pandas primitives used by the program *)

Module Py.

(** [str.lower] on the ASCII range. *)
Definition lower_ascii (c : ascii) : ascii :=
  let n := N_of_ascii c in
  if ((65 <=? n) && (n <=? 90))%N then ascii_of_N (n + 32) else c.

Fixpoint lower (s : string) : string :=
  match s with
  | EmptyString => EmptyString
  | String c s' => String (lower_ascii c) (lower s')
  end.

(** [str(n)] of an integer: decimal digits, a leading minus sign. *)
Definition str (n : Z) : string := pretty n.

(** [Series.str.zfill(width)]: pad with ['0'] on the left up to [width]
    characters; longer texts are unchanged. *)
Fixpoint zeros (n : nat) : string :=
  match n with
  | O => EmptyString
  | S n' => String "0" (zeros n')
  end.

Definition zfill (width : nat) (s : string) : string :=
  zeros (width - String.length s) +:+ s.

Definition is_digit (c : ascii) : bool :=
  let n := N_of_ascii c in ((48 <=? n) && (n <=? 57))%N.

Fixpoint all_digits (s : string) : bool :=
  match s with
  | EmptyString => true
  | String c s' => is_digit c && all_digits s'
  end.

(** Sum of a column. *)
Definition sum (l : list Z) : Z := foldr Z.add 0 l.

(** Sum of a nullable column: [Series.sum] skips nulls. *)
Definition nansum (l : list (option Z)) : Z := sum (omap id l).

(** Lexicographic combination of two comparisons. *)
Definition lex (c1 c2 : comparison) : comparison :=
  match c1 with
  | Eq => c2
  | _ => c1
  end.

Definition le_of (c : comparison) : bool :=
  match c with
  | Gt => false
  | _ => true
  end.

End Py.

(** ** Calendar dates *)

Record date := Date { year : Z; month : Z; day : Z }.

Global Instance date_eq_dec : EqDecision date.
Proof. solve_decision. Defined.

Module Calendar.

Definition is_leap (y : Z) : bool :=
  (y mod 4 =? 0) && (negb (y mod 100 =? 0) || (y mod 400 =? 0)).

Definition days_in_month (y m : Z) : Z :=
  if m =? 2 then (if is_leap y then 29 else 28)
  else if (m =? 4) || (m =? 6) || (m =? 9) || (m =? 11) then 30
  else 31.

Definition valid (d : date) : Prop :=
  1 <= month d <= 12 /\ 1 <= day d <= days_in_month (year d) (month d).

(** Days of the year before the first of month [m]. *)
Definition days_before_month (y m : Z) : Z :=
  Py.sum (map (days_in_month y) (map Z.of_nat (seq 1 (Z.to_nat (m - 1))))).

Definition days_before_year (y : Z) : Z :=
  let p := y - 1 in p * 365 + p / 4 - p / 100 + p / 400.

(** Proleptic Gregorian ordinal: 0001-01-01 is day 1, a Monday. *)
Definition ymd2ord (y m d : Z) : Z :=
  days_before_year y + days_before_month y m + d.

Definition ordinal (d : date) : Z := ymd2ord (year d) (month d) (day d).

(** The Monday that starts ISO week 1 of year [y]: the week that holds the
    year's first Thursday. *)
Definition isoweek1monday (y : Z) : Z :=
  let firstday := ymd2ord y 1 1 in
  let firstweekday := (firstday + 6) mod 7 in
  let week1monday := firstday - firstweekday in
  if 3 <? firstweekday then week1monday + 7 else week1monday.

(** [isocalendar().week]. *)
Definition isoweek (d : date) : Z :=
  let today := ordinal d in
  let week := (today - isoweek1monday (year d)) / 7 in
  if week <? 0 then (today - isoweek1monday (year d - 1)) / 7 + 1
  else if (52 <=? week) && (isoweek1monday (year d + 1) <=? today) then 1
  else week + 1.

Definition compare (a b : date) : comparison :=
  Py.lex (year a ?= year b) (Py.lex (month a ?= month b) (day a ?= day b)).

End Calendar.

(** ** [DataFrame.groupby] with its defaults

    [groupby(by)] with the defaults [sort=True, dropna=True]: the rows whose
    key is null belong to no group; there is one group per distinct key, the
    groups come in ascending key order, and the rows of a group keep their
    order in the frame. *)

Section groupby.
Context {R K : Type} `{EqDecision K}.
Variable by_ : R → option K.
Variable leb : K → K → bool.

Fixpoint insert_sorted (k : K) (ks : list K) : list K :=
  match ks with
  | [] => [k]
  | h :: t => if leb k h then k :: h :: t else h :: insert_sorted k t
  end.

Definition sort_keys (ks : list K) : list K := foldr insert_sorted [] ks.

Definition group_keys (df : list R) : list K :=
  sort_keys (remove_dups (omap by_ df)).

Definition group_rows (df : list R) (k : K) : list R :=
  filter (λ r, by_ r = Some k) df.

Definition groupby (df : list R) : list (K * list R) :=
  map (λ k, (k, group_rows df k)) (group_keys df).
End groupby.

(** ** The tables *)

(** A row of the raw case table (one per report version, date and
    municipality).  The administrative text columns can be empty. *)
Module Case.
Record row := Row {
  Version : Z;
  Date_of_report : string;
  Date_of_publication : date;
  Municipality_code : option string;
  Municipality_name : option string;
  Province : option string;
  Security_region_code : option string;
  Security_region_name : option string;
  Municipal_health_service : option string;
  ROAZ_region : option string;
  Total_reported : Z;
  Deceased : Z
}.

Global Instance row_eq_dec : EqDecision row.
Proof. solve_decision. Defined.
End Case.

(** The three columns of the hospitalization table that the merge selects. *)
Module Hosp.
Record row := Row {
  Date_of_statistics : date;
  Municipality_code : option string;
  Hospital_admission : Z
}.
End Hosp.

(** A row of the merged table: the case columns, [Date_of_publication]
    renamed to [Date_of_statistics], and the joined admission count. *)
Module Merged.
Record row := Row {
  case_columns : Case.row;
  Hospital_admission : option Z
}.

Definition Date_of_statistics (m : row) : date :=
  Case.Date_of_publication (case_columns m).
Definition Municipality_code (m : row) : option string :=
  Case.Municipality_code (case_columns m).
End Merged.

(** A canonical record, the unit that is persisted and queried. *)
Module Canon.
Record row := Row {
  Date_of_statistics : date;
  Municipality_code : option string;
  Municipality_name : option string;
  Province : option string;
  Security_region_code : option string;
  Security_region_name : option string;
  Municipal_health_service : option string;
  ROAZ_region : option string;
  Total_reported : Z;
  Deceased : Z;
  Hospital_admission : option Z;
  Year_of_statistics : Z;
  Month_of_statistics : Z;
  Week_of_statistics : Z;
  Isomonth_of_statistics : string;
  Isoweek_of_statistics : string;
  Country : string
}.
End Canon.

(** ** The values a grouping column can hold *)

Inductive cell :=
  | CInt (n : Z)
  | CStr (s : string).

Global Instance cell_eq_dec : EqDecision cell.
Proof. solve_decision. Defined.

Definition cell_leb (a b : cell) : bool :=
  match a, b with
  | CInt x, CInt y => x <=? y
  | CStr x, CStr y => Py.le_of (String.compare x y)
  | CInt _, CStr _ => true
  | CStr _, CInt _ => false
  end.

(** The columns the dashboard groups by, and the metrics it sums. *)
Inductive dimension := Country | Province | Municipality_name | Month_of_statistics.

Inductive metric := Total_reported | Hospital_admission | Deceased.

Global Instance dimension_eq_dec : EqDecision dimension.
Proof. solve_decision. Defined.

Global Instance metric_eq_dec : EqDecision metric.
Proof. solve_decision. Defined.

Definition dimension_cell (d : dimension) (r : Canon.row) : option cell :=
  match d with
  | Country => Some (CStr (Canon.Country r))
  | Province => CStr <$> Canon.Province r
  | Municipality_name => CStr <$> Canon.Municipality_name r
  | Month_of_statistics => Some (CInt (Canon.Month_of_statistics r))
  end.

Definition metric_cell (m : metric) (r : Canon.row) : option Z :=
  match m with
  | Total_reported => Some (Canon.Total_reported r)
  | Hospital_admission => Canon.Hospital_admission r
  | Deceased => Some (Canon.Deceased r)
  end.

(** A row of an aggregated view: the group's value of the grouping column and
    the sum of each selected metric. *)
Record agg_row := AggRow {
  agg_key : cell;
  agg_sums : list (metric * Z)
}.

Fixpoint lookup_sum (m : metric) (sums : list (metric * Z)) : option Z :=
  match sums with
  | [] => None
  | (m', v) :: t => if decide (m' = m) then Some v else lookup_sum m t
  end.

(** The cell of an aggregated row in the column of metric [m]. *)
Definition agg_value (m : metric) (a : agg_row) : option Z :=
  lookup_sum m (agg_sums a).

(** The total of the column of metric [m] over an aggregated view. *)
Definition agg_total (m : metric) (out : list agg_row) : Z :=
  Py.nansum (map (agg_value m) out).

(** The total of metric [m] over a table of canonical records. *)
Definition metric_total (m : metric) (df : list Canon.row) : Z :=
  Py.nansum (map (metric_cell m) df).

(** ** Outcome of an operation that prints and may raise *)

Inductive exn :=
  | AttributeError (msg : string)
  | FileNotFoundError (path : string)
  | KeyError (key : metric).

Record outcome (A : Type) := Outcome {
  printed : list string;
  result : exn + A
}.
Arguments Outcome {A} _ _.
Arguments printed {A} _.
Arguments result {A} _.

(** The attributes of the [pandas] module that the program names.  Attribute
    names are case sensitive: the module has [DataFrame], whose call without
    arguments builds the empty frame. *)
Definition pd_getattr (name : string) : option (list Canon.row) :=
  if decide (name = "DataFrame") then Some [] else None.

(** ** [class DataManager] *)

Module DataManager.

Definition LOCAL_FOLDER : string := "Data".

Definition old_municipalities : list string :=
  ["Brielle"; "Hellevoetsluis"; "Westvoorne"].

(** [case_df['Municipality_name'].isin(old_municipalities)]; a null name is
    in no list. *)
Definition is_old (r : Case.row) : bool :=
  match Case.Municipality_name r with
  | Some n => bool_decide (n ∈ old_municipalities)
  | None => false
  end.

(** The eight grouping columns of the repair. *)
Definition merge_key : Type :=
  Z * string * date * string * string * string * string * string.

Definition merge_key_of (r : Case.row) : option merge_key :=
  p ← Case.Province r;
  sc ← Case.Security_region_code r;
  sn ← Case.Security_region_name r;
  mhs ← Case.Municipal_health_service r;
  roaz ← Case.ROAZ_region r;
  Some (Case.Version r, Case.Date_of_report r, Case.Date_of_publication r,
        p, sc, sn, mhs, roaz).

Definition merge_key_leb (a b : merge_key) : bool :=
  let '(v1, r1, d1, p1, sc1, sn1, m1, z1) := a in
  let '(v2, r2, d2, p2, sc2, sn2, m2, z2) := b in
  Py.le_of
    (Py.lex (v1 ?= v2)
    (Py.lex (String.compare r1 r2)
    (Py.lex (Calendar.compare d1 d2)
    (Py.lex (String.compare p1 p2)
    (Py.lex (String.compare sc1 sc2)
    (Py.lex (String.compare sn1 sn2)
    (Py.lex (String.compare m1 m2) (String.compare z1 z2)))))))).

(** One output row of the grouped frame, with the municipality columns of
    the merged municipality added. *)
Definition grouped_row (g : merge_key * list Case.row) : Case.row :=
  let '(v, r, d, p, sc, sn, mhs, roaz) := fst g in
  {| Case.Version := v;
     Case.Date_of_report := r;
     Case.Date_of_publication := d;
     Case.Municipality_code := Some "GM1992";
     Case.Municipality_name := Some "Voorne aan zee";
     Case.Province := Some p;
     Case.Security_region_code := Some sc;
     Case.Security_region_name := Some sn;
     Case.Municipal_health_service := Some mhs;
     Case.ROAZ_region := Some roaz;
     Case.Total_reported := Py.sum (map Case.Total_reported (snd g));
     Case.Deceased := Py.sum (map Case.Deceased (snd g)) |}.

(** [np.where(Deceased == 9999, 0, Deceased)] on one row. *)
Definition reset_outlier (r : Case.row) : Case.row :=
  {| Case.Version := Case.Version r;
     Case.Date_of_report := Case.Date_of_report r;
     Case.Date_of_publication := Case.Date_of_publication r;
     Case.Municipality_code := Case.Municipality_code r;
     Case.Municipality_name := Case.Municipality_name r;
     Case.Province := Case.Province r;
     Case.Security_region_code := Case.Security_region_code r;
     Case.Security_region_name := Case.Security_region_name r;
     Case.Municipal_health_service := Case.Municipal_health_service r;
     Case.ROAZ_region := Case.ROAZ_region r;
     Case.Total_reported := Case.Total_reported r;
     Case.Deceased := if Case.Deceased r =? 9999 then 0 else Case.Deceased r |}.

Definition _clean_case_data (case_df : list Case.row) : list Case.row :=
  let old_municipality_df := List.filter is_old case_df in
  let grouped_df :=
    map grouped_row (groupby merge_key_of merge_key_leb old_municipality_df) in
  let full_case_df :=
    List.filter (λ r, negb (is_old r)) case_df ++ grouped_df in
  map reset_outlier full_case_df.

Definition _clean_hospital_data (hospital_df : list Hosp.row) : list Hosp.row :=
  hospital_df.

(** The rows of the hospitalization table with the join key of case row
    [c].  pandas matches a null key with a null key. *)
Definition matches (c : Case.row) (hospital_df : list Hosp.row) : list Hosp.row :=
  filter (λ h, Hosp.Date_of_statistics h = Case.Date_of_publication c
               ∧ Hosp.Municipality_code h = Case.Municipality_code c)
         hospital_df.

(** The rows a left join produces for one case row. *)
Definition join_row (hospital_df : list Hosp.row) (c : Case.row) : list Merged.row :=
  match matches c hospital_df with
  | [] => [Merged.Row c None]
  | hs => map (λ h, Merged.Row c (Some (Hosp.Hospital_admission h))) hs
  end.

Definition _merge_data (case_df : list Case.row) (hospital_df : list Hosp.row)
  : list Merged.row :=
  flat_map (join_row hospital_df) case_df.

(** [replace({'Fryslân': 'Friesland'})] on one cell. *)
Definition replace_province (c : option string) : option string :=
  match c with
  | Some s => if decide (s = "Fryslân") then Some "Friesland" else Some s
  | None => None
  end.

Definition clean_merged_row (m : Merged.row) : Canon.row :=
  let c := Merged.case_columns m in
  let Date_of_statistics := Merged.Date_of_statistics m in
  let Year_of_statistics := year Date_of_statistics in
  let Month_of_statistics := month Date_of_statistics in
  let Week_of_statistics := Calendar.isoweek Date_of_statistics in
  {| Canon.Date_of_statistics := Date_of_statistics;
     Canon.Municipality_code := Case.Municipality_code c;
     Canon.Municipality_name := Case.Municipality_name c;
     Canon.Province := replace_province (Case.Province c);
     Canon.Security_region_code := Case.Security_region_code c;
     Canon.Security_region_name := replace_province (Case.Security_region_name c);
     Canon.Municipal_health_service := Case.Municipal_health_service c;
     Canon.ROAZ_region := Case.ROAZ_region c;
     Canon.Total_reported := Case.Total_reported c;
     Canon.Deceased := Case.Deceased c;
     Canon.Hospital_admission := Merged.Hospital_admission m;
     Canon.Year_of_statistics := Year_of_statistics;
     Canon.Month_of_statistics := Month_of_statistics;
     Canon.Week_of_statistics := Week_of_statistics;
     Canon.Isomonth_of_statistics :=
       Py.str Year_of_statistics +:+ Py.zfill 2 (Py.str Month_of_statistics);
     Canon.Isoweek_of_statistics :=
       Py.str Year_of_statistics +:+ Py.zfill 2 (Py.str Week_of_statistics);
     Canon.Country := "Netherlands" |}.

Definition _clean_merged_data (merged_df : list Merged.row) : list Canon.row :=
  map clean_merged_row merged_df.

(** [Path(LOCAL_FOLDER) / f'covid_{name}.csv'] *)
Definition csv_path (name : string) : string :=
  LOCAL_FOLDER +:+ "/" +:+ "covid_" +:+ name +:+ ".csv".

(** [to_csv(path)]: the file is replaced as a whole. *)
Definition to_csv (fs : gmap string (list Canon.row)) (path : string)
    (df : list Canon.row) : gmap string (list Canon.row) :=
  <[path := df]> fs.

Definition _save_clean_data (fs : gmap string (list Canon.row))
    (merged_dataframe : list Canon.row) : gmap string (list Canon.row) :=
  let by_year :=
    groupby (λ r, Some (Canon.Year_of_statistics r)) Z.leb merged_dataframe in
  let fs' :=
    foldl (λ acc g, to_csv acc (csv_path (Py.str (fst g))) (snd g)) fs by_year in
  to_csv fs' (csv_path "alltime") merged_dataframe.

(** [pd.read_csv(path)] of a persisted file. *)
Definition read_csv (fs : gmap string (list Canon.row)) (path : string)
  : exn + list Canon.row :=
  match fs !! path with
  | Some df => inr df
  | None => inl (FileNotFoundError path)
  end.

Definition pull_data (fs : gmap string (list Canon.row)) (year : string)
  : outcome (list Canon.row) :=
  let file_path := csv_path (Py.lower year) in
  match read_csv fs file_path with
  | inr df => Outcome [] (inr df)
  | inl (FileNotFoundError _) =>
      Outcome ["No data found for year " +:+ year]
        match pd_getattr "Dataframe" with
        | Some df => inr df
        | None => inl (AttributeError "module 'pandas' has no attribute 'Dataframe'")
        end
  | inl e => Outcome [] (inl e)
  end.

Definition filter_data (fs : gmap string (list Canon.row)) (year province : string)
  : outcome (list Canon.row) :=
  let pulled := pull_data fs (Py.lower year) in
  match result pulled with
  | inl e => pulled
  | inr df =>
      if bool_decide (province ∈ ["Netherlands"; "All provinces"])
      then Outcome (printed pulled) (inr df)
      else Outcome (printed pulled)
             (inr (filter (λ r, Canon.Province r = Some province) df))
  end.

Definition aggregate_data (filtered_df : list Canon.row)
    (columns_to_aggregate : list metric) (column_to_aggregate_on : dimension)
  : list agg_row :=
  map (λ g, AggRow (fst g)
              (map (λ m, (m, Py.nansum (map (metric_cell m) (snd g))))
                   columns_to_aggregate))
      (groupby (dimension_cell column_to_aggregate_on) cell_leb filtered_df).

(** [take(indexer)]: the rows at the positions of [indexer], in its order. *)
Definition take {A : Type} (indexer : list nat) (l : list A) : list A :=
  omap (λ i, l !! i) indexer.

Section sort_data.
(** [ndarray.argsort(kind='quicksort')], the default kind of
    [sort_values].  The program fixes neither the algorithm nor the order
    it leaves equal values in, so the function is a parameter here. *)
Variable argsort : list Z → list nat.

(** pandas' [nargsort] on a column without nulls: a descending sort
    reverses the column and the positions, sorts, and reverses the
    result. *)
Definition nargsort (items : list Z) (ascending : bool) : list nat :=
  if ascending then argsort items
  else reverse (take (argsort (reverse items))
                  (reverse (seq 0 (List.length items)))).

(** [sort_values(by=..., ascending=..., inplace=True)]: the new content
    of the frame, or [KeyError] when the frame has no such column. *)
Definition sort_values (df : list agg_row) (by_ : metric) (ascending : bool)
  : exn + list agg_row :=
  match mapM (agg_value by_) df with
  | Some items => inr (take (nargsort items ascending) df)
  | None => inl (KeyError by_)
  end.

Definition sort_data (aggregated_df : list agg_row) (sort_by : metric)
    (sort_order : string) : exn + list agg_row :=
  if decide (sort_order = "Ascending")
  then sort_values aggregated_df sort_by true
  else sort_values aggregated_df sort_by false.
End sort_data.

(** *** Refreshing the persisted data *)

Definition MAX_DAYS_DATA_OUTDATED : Z := 7.

(** [timedelta(days=d)], in microseconds, the resolution of a [timedelta]. *)
Definition timedelta_days (d : Z) : Z := d * 86400 * 1000000.

Definition DATA_URLS : list (string * list string) :=
  [("covid_cases",
    ["https://data.rivm.nl/covid-19/COVID-19_aantallen_gemeente_per_dag.csv";
     "https://data.rivm.nl/covid-19/COVID-19_aantallen_gemeente_per_dag_tm_03102021.csv"]);
   ("covid_hospitalizations",
    ["https://data.rivm.nl/covid-19/COVID-19_ziekenhuisopnames.csv";
     "https://data.rivm.nl/data/covid-19/COVID-19_ziekenhuisopnames_tm_03102021.csv"])].

(** What a refresh can raise: no connection, a download that fails, a data
    type without URLs. *)
Inductive refresh_exn :=
  | ConnectionError (msg : string)
  | FetchError (url : string)
  | UnknownDataType (data_type : string).

Fixpoint lookup_urls (data_type : string) (urls : list (string * list string))
  : option (list string) :=
  match urls with
  | [] => None
  | (k, v) :: t => if decide (k = data_type) then Some v else lookup_urls data_type t
  end.

(** [[pd.read_csv(url, sep=';') for url in urls]]: the tables in the order of
    the URLs; the first download that fails ends the comprehension. *)
Fixpoint read_all {A : Type} (read_csv_url : string → option (list A))
    (urls : list string) : refresh_exn + list (list A) :=
  match urls with
  | [] => inr []
  | url :: rest =>
      match read_csv_url url with
      | None => inl (FetchError url)
      | Some df =>
          match read_all read_csv_url rest with
          | inl e => inl e
          | inr dfs => inr (df :: dfs)
          end
      end
  end.

(** The web is a parameter: [read_csv_url url] is the table behind [url], or
    nothing when the download fails. *)
Definition _read_and_concat_data {A : Type} (read_csv_url : string → option (list A))
    (data_type : string) : refresh_exn + list A :=
  match lookup_urls data_type DATA_URLS with
  | None => inl (UnknownDataType data_type)
  | Some urls =>
      match read_all read_csv_url urls with
      | inl e => inl e
      | inr dfs => inr (List.concat dfs)
      end
  end.

Definition _read_and_save_data_from_web (fs : gmap string (list Canon.row))
    (read_case_csv : string → option (list Case.row))
    (read_hospital_csv : string → option (list Hosp.row))
  : refresh_exn + gmap string (list Canon.row) :=
  match _read_and_concat_data read_case_csv "covid_cases" with
  | inl e => inl e
  | inr raw_case_data =>
      let clean_case_data := _clean_case_data raw_case_data in
      match _read_and_concat_data read_hospital_csv "covid_hospitalizations" with
      | inl e => inl e
      | inr raw_hospital_data =>
          let clean_hospital_data := _clean_hospital_data raw_hospital_data in
          let full_dataset := _merge_data clean_case_data clean_hospital_data in
          let clean_full_dataset := _clean_merged_data full_dataset in
          inr (_save_clean_data fs clean_full_dataset)
      end
  end.

(** [file_age] is the age of the all-time file (now minus its modification
    time, in microseconds), read only when the file exists; [online] is the
    answer of [_check_internet_connection].  The result is the folder after
    the call. *)
Definition _refresh_covid_data (fs : gmap string (list Canon.row)) (file_age : Z)
    (online : bool)
    (read_case_csv : string → option (list Case.row))
    (read_hospital_csv : string → option (list Hosp.row))
  : refresh_exn + gmap string (list Canon.row) :=
  let data_file := csv_path "alltime" in
  if bool_decide (is_Some (fs !! data_file))
     && (file_age <? timedelta_days MAX_DAYS_DATA_OUTDATED)
  then inr fs
  else if online
  then _read_and_save_data_from_web fs read_case_csv read_hospital_csv
  else inl (ConnectionError "No internet connection and data is outdated or missing").

(** *** The values offered for selection *)

(** [Series.unique()]: the distinct values, in order of first appearance. *)
Fixpoint unique_from {A : Type} `{EqDecision A} (seen : list A) (l : list A) : list A :=
  match l with
  | [] => []
  | x :: t =>
      if decide (x ∈ seen) then unique_from seen t
      else x :: unique_from (x :: seen) t
  end.

Definition unique {A : Type} `{EqDecision A} (l : list A) : list A :=
  unique_from [] l.

Definition str_leb (a b : string) : bool := Py.le_of (String.compare a b).

(** [sorted(...)] of a list of texts. *)
Definition sorted (l : list string) : list string := sort_keys str_leb l.

Definition _get_unique_year_values (data : list Canon.row) : list string :=
  "Alltime" :: sorted (unique (map (λ r, Py.str (Canon.Year_of_statistics r)) data)).

Definition _get_unique_province_values (data : list Canon.row) : list string :=
  ["Netherlands"; "All provinces"] ++ sorted (unique (omap Canon.Province data)).

(** The two lists of the instance, in the order they are set. *)
Record unique_values := UniqueValues {
  unique_province_values : list string;
  unique_year_values : list string
}.

Definition _set_unique_values (fs : gmap string (list Canon.row))
  : outcome unique_values :=
  let pulled := pull_data fs "Alltime" in
  match result pulled with
  | inl e => Outcome (printed pulled) (inl e)
  | inr data =>
      Outcome (printed pulled)
        (inr (UniqueValues (_get_unique_province_values data)
                           (_get_unique_year_values data)))
  end.

(** The constructor: the refresh, then the lists, read from the folder the
    refresh leaves. *)
Definition __init__ (fs : gmap string (list Canon.row)) (file_age : Z)
    (online : bool)
    (read_case_csv : string → option (list Case.row))
    (read_hospital_csv : string → option (list Hosp.row))
  : refresh_exn + (gmap string (list Canon.row) * outcome unique_values) :=
  match _refresh_covid_data fs file_age online read_case_csv read_hospital_csv with
  | inl e => inl e
  | inr fs' => inr (fs', _set_unique_values fs')
  end.

End DataManager.

(** ** The frames handed to the plots *)

(** The labels of the columns. *)
Definition dimension_name (d : dimension) : string :=
  match d with
  | Country => "Country"
  | Province => "Province"
  | Municipality_name => "Municipality_name"
  | Month_of_statistics => "Month_of_statistics"
  end.

Definition metric_name (m : metric) : string :=
  match m with
  | Total_reported => "Total_reported"
  | Hospital_admission => "Hospital_admission"
  | Deceased => "Deceased"
  end.

(** What the plotting code can raise: an exception of the query layer, a
    label that is not a column of the frame, the abstract method, a local
    name read before it is bound. *)
Inductive plot_exn :=
  | Raised (e : exn)
  | ColumnKeyError (labels : list string)
  | NotImplementedError (msg : string)
  | UnboundLocalError (name : string).

(** The call that reaches the plotting backend: the kind of chart, the
    column of the x axis, the columns drawn, their colours, the title set on
    the axes, and the rows.  What the backend draws is outside the model. *)
Record plot_call := PlotCall {
  call_kind : string;
  call_x : string;
  call_y : list string;
  call_color : list string;
  call_title : string;
  call_data : list agg_row
}.

(** [DataFrame.plot(kind=..., x=..., y=...)] up to the backend: [x] is looked
    up among the columns and becomes the index, then the columns [y] are
    selected; a missing label raises [KeyError]. *)
Definition DataFrame_plot (columns : list string) (data : list agg_row)
    (kind x : string) (y color : list string) (title : string)
  : plot_exn + plot_call :=
  if bool_decide (x ∈ columns) then
    match filter (λ c, c ∉ filter (λ c', c' ≠ x) columns) y with
    | [] => inr (PlotCall kind x y color title data)
    | missing => inl (ColumnKeyError missing)
    end
  else inl (ColumnKeyError [x]).

(** [repr] of a list of texts without quotes or backslashes. *)
Definition repr_list (l : list string) : string :=
  "[" +:+ String.concat ", " (map (λ s, "'" +:+ s +:+ "'") l) +:+ "]".

(** ** [class PlotTemplate] *)

Module PlotTemplate.

Record widget_values := WidgetValues {
  wv_year : string;
  wv_province : string;
  wv_total_reported : bool;
  wv_hospital_admission : bool;
  wv_deceased : bool;
  wv_municipality : bool;
  wv_month : bool;
  wv_sort_by : string;
  wv_sort_order : string;
  wv_sort_data : bool;
  wv_date_format : string
}.

Definition aggregate_data (self : widget_values) (filtered_df : list Canon.row)
    (metrics_to_aggregate : list metric) : list agg_row :=
  let province := wv_province self in
  let municipality := wv_municipality self in
  let month := wv_month self in
  if bool_decide (province = "Netherlands") && bool_decide (month = false) then
    DataManager.aggregate_data filtered_df metrics_to_aggregate Country
  else if municipality then
    DataManager.aggregate_data filtered_df metrics_to_aggregate Municipality_name
  else if month then
    DataManager.aggregate_data filtered_df metrics_to_aggregate Month_of_statistics
  else
    DataManager.aggregate_data filtered_df metrics_to_aggregate Province.

Definition pull_and_filter_data (self : widget_values)
    (fs : gmap string (list Canon.row)) : outcome (list Canon.row) :=
  DataManager.filter_data fs (wv_year self) (wv_province self).

(** The columns of the frame [aggregate_data] returns: the grouping column,
    by the same chain of tests, then the summed metrics. *)
Definition aggregate_columns (self : widget_values)
    (metrics_to_aggregate : list metric) : list string :=
  let province := wv_province self in
  let municipality := wv_municipality self in
  let month := wv_month self in
  (if bool_decide (province = "Netherlands") && bool_decide (month = false) then
     dimension_name Country
   else if municipality then dimension_name Municipality_name
   else if month then dimension_name Month_of_statistics
   else dimension_name Province)
  :: map metric_name metrics_to_aggregate.

Definition plot (self : widget_values) : plot_exn + option plot_call :=
  inl (NotImplementedError "Subclass must implement abstract method").

End PlotTemplate.

(** ** [class BarPlot] *)

Module BarPlot.

Definition month_mapping (month_number : Z) : string :=
  match month_number with
  | 1 => "January"
  | 2 => "February"
  | 3 => "March"
  | 4 => "April"
  | 5 => "May"
  | 6 => "June"
  | 7 => "July"
  | 8 => "August"
  | 9 => "September"
  | 10 => "October"
  | 11 => "November"
  | 12 => "December"
  | _ => "Invalid Month"
  end.

(** [Series.map(self.month_mapping)] on one cell of the grouping column. *)
Definition map_month (a : agg_row) : agg_row :=
  AggRow (match agg_key a with
          | CInt n => CStr (month_mapping n)
          | CStr _ => CStr "Invalid Month"
          end)
         (agg_sums a).

Definition selected_metrics (self : PlotTemplate.widget_values) : list metric :=
  (if PlotTemplate.wv_total_reported self then [Total_reported] else [])
  ++ (if PlotTemplate.wv_hospital_admission self then [Hospital_admission] else [])
  ++ (if PlotTemplate.wv_deceased self then [Deceased] else []).

Definition metric_colors (m : metric) : string :=
  match m with
  | Total_reported => "blue"
  | Hospital_admission => "orange"
  | Deceased => "green"
  end.

(** The x column, the end of the title and the frame after the chain of
    tests on the columns; nothing when no test succeeds. *)
Definition x_axis (self : PlotTemplate.widget_values) (columns : list string)
    (aggregated_data : list agg_row) : option (string * string * list agg_row) :=
  let province := PlotTemplate.wv_province self in
  let year := Py.lower (PlotTemplate.wv_year self) in
  if bool_decide ("Province" ∈ columns) then
    Some ("Province", "for " +:+ province +:+ " " +:+ year, aggregated_data)
  else if bool_decide ("Municipality_name" ∈ columns) then
    Some ("Municipality_name",
          "for municipalities in " +:+ province +:+ " " +:+ year, aggregated_data)
  else if bool_decide ("Month_of_statistics" ∈ columns) then
    Some ("Month_of_statistics", "for each month " +:+ year,
          map map_month aggregated_data)
  else if bool_decide ("Country" ∈ columns) then
    Some ("Country", "for " +:+ province +:+ " " +:+ year, aggregated_data)
  else None.

(** [plot]: the lines printed, and the exception raised, nothing when no
    metric is selected, or the call that reaches the backend.  [argsort] is
    the sorting parameter of [DataManager.sort_data]. *)
Definition plot (argsort : list Z → list nat) (self : PlotTemplate.widget_values)
    (fs : gmap string (list Canon.row))
  : list string * (plot_exn + option plot_call) :=
  let pulled := PlotTemplate.pull_and_filter_data self fs in
  match result pulled with
  | inl e => (printed pulled, inl (Raised e))
  | inr data =>
      let selected_metrics := selected_metrics self in
      match selected_metrics with
      | [] => (printed pulled, inr None)
      | _ =>
          let column_colors := map metric_colors selected_metrics in
          let aggregated_data :=
            PlotTemplate.aggregate_data self data selected_metrics in
          let columns := PlotTemplate.aggregate_columns self selected_metrics in
          match x_axis self columns aggregated_data with
          | None => (printed pulled, inl (UnboundLocalError "x_column"))
          | Some (x_column, title_suffix, aggregated_data) =>
              let sorted_data :=
                match List.find (λ m, bool_decide (metric_name m = PlotTemplate.wv_sort_by self))
                        selected_metrics with
                | Some sort_by =>
                    if PlotTemplate.wv_sort_data self
                    then DataManager.sort_data argsort aggregated_data sort_by
                           (PlotTemplate.wv_sort_order self)
                    else inr aggregated_data
                | None => inr aggregated_data
                end in
              match sorted_data with
              | inl e => (printed pulled, inl (Raised e))
              | inr aggregated_data =>
                  match DataFrame_plot columns aggregated_data "bar" x_column
                          (map metric_name selected_metrics) column_colors
                          ("Total reported data " +:+ title_suffix) with
                  | inl e => (printed pulled, inl e)
                  | inr call => (printed pulled, inr (Some call))
                  end
              end
          end
      end
  end.

End BarPlot.

(** ** [class LinePlot] *)

Module LinePlot.

Definition selected_metric (self : PlotTemplate.widget_values) : list metric :=
  if PlotTemplate.wv_total_reported self then [Total_reported]
  else if PlotTemplate.wv_hospital_admission self then [Hospital_admission]
  else if PlotTemplate.wv_deceased self then [Deceased]
  else [].

Definition plot (self : PlotTemplate.widget_values)
    (fs : gmap string (list Canon.row))
  : list string * (plot_exn + option plot_call) :=
  let pulled := PlotTemplate.pull_and_filter_data self fs in
  match result pulled with
  | inl e => (printed pulled, inl (Raised e))
  | inr data =>
      let selected_metric := selected_metric self in
      match selected_metric with
      | [] => (printed pulled, inr None)
      | _ =>
          let aggregated_data :=
            PlotTemplate.aggregate_data self data selected_metric in
          let columns := PlotTemplate.aggregate_columns self selected_metric in
          match DataFrame_plot columns aggregated_data "line" "Metric"
                  (map metric_name selected_metric) ["blue"]
                  (repr_list (map metric_name selected_metric) +:+ " for "
                   +:+ PlotTemplate.wv_province self +:+ " "
                   +:+ PlotTemplate.wv_year self +:+ " ") with
          | inl e => (printed pulled, inl e)
          | inr call => (printed pulled, inr (Some call))
          end
      end
  end.

End LinePlot.

(** ** Notions used to state the properties *)

(** The join key of a hospitalization row. *)
Definition join_key (h : Hosp.row) : date * option string :=
  (Hosp.Date_of_statistics h, Hosp.Municipality_code h).

(** What numpy documents of [argsort]: the result lists every position once,
    and reading the values in that order gives them in ascending order. *)
Definition argsort_contract (argsort : list Z → list nat) : Prop :=
  ∀ items, argsort items ≡ₚ seq 0 (List.length items)
           ∧ Sorted Z.le (DataManager.take (argsort items) items).

(** Two sorts that meet it: a merge sort of the values paired with their
    positions, under an order that keeps equal values in their order, and
    under one that turns them around. *)
Definition value_le (a b : Z * nat) : Prop :=
  a.1 < b.1 ∨ (a.1 = b.1 ∧ (a.2 ≤ b.2)%nat).

Global Instance value_le_dec : RelDecision value_le.
Proof. intros a b. unfold value_le. apply _. Defined.

Definition value_le_rev (a b : Z * nat) : Prop :=
  a.1 < b.1 ∨ (a.1 = b.1 ∧ (b.2 ≤ a.2)%nat).

Global Instance value_le_rev_dec : RelDecision value_le_rev.
Proof. intros a b. unfold value_le_rev. apply _. Defined.

Definition argsort_by (R : relation (Z * nat)) `{!RelDecision R} (items : list Z)
  : list nat :=
  map snd (merge_sort R (zip items (seq 0 (List.length items)))).

Definition stable_argsort : list Z → list nat := argsort_by value_le.

Definition reversing_argsort : list Z → list nat := argsort_by value_le_rev.

(** Output row [o] of the repair stands for input row [r]: the two agree on
    the eight grouping columns, and [o] carries the municipality of [r], or
    the merged municipality when [r] is a row of one of the three old ones. *)
Definition corresponds (r o : Case.row) : Prop :=
  Case.Version o = Case.Version r
  ∧ Case.Date_of_report o = Case.Date_of_report r
  ∧ Case.Date_of_publication o = Case.Date_of_publication r
  ∧ Case.Province o = Case.Province r
  ∧ Case.Security_region_code o = Case.Security_region_code r
  ∧ Case.Security_region_name o = Case.Security_region_name r
  ∧ Case.Municipal_health_service o = Case.Municipal_health_service r
  ∧ Case.ROAZ_region o = Case.ROAZ_region r
  ∧ if DataManager.is_old r
    then Case.Municipality_name o = Some "Voorne aan zee"
         ∧ Case.Municipality_code o = Some "GM1992"
    else Case.Municipality_name o = Case.Municipality_name r
         ∧ Case.Municipality_code o = Case.Municipality_code r.


(** ** Sample tables *)

Module Sample.

(** A case row of the security region Rotterdam-Rijnmond. *)
Definition case_row (name code : string) (d : date) (tr dec : Z) : Case.row :=
  {| Case.Version := 7;
     Case.Date_of_report := "2023-03-31 10:00:00";
     Case.Date_of_publication := d;
     Case.Municipality_code := Some code;
     Case.Municipality_name := Some name;
     Case.Province := Some "Zuid-Holland";
     Case.Security_region_code := Some "VR17";
     Case.Security_region_name := Some "Rotterdam-Rijnmond";
     Case.Municipal_health_service := Some "GGD Rotterdam-Rijnmond";
     Case.ROAZ_region := Some "Traumacentrum ZuidWest-Nederland";
     Case.Total_reported := tr;
     Case.Deceased := dec |}.

Definition hosp_row (code : string) (d : date) (ha : Z) : Hosp.row :=
  {| Hosp.Date_of_statistics := d;
     Hosp.Municipality_code := Some code;
     Hosp.Hospital_admission := ha |}.

Definition rotterdam : Case.row := case_row "Rotterdam" "GM0599" (Date 2022 1 5) 90 2.
Definition schiedam : Case.row := case_row "Schiedam" "GM0606" (Date 2022 1 5) 11 0.

(** A canonical record, built by the field normalizer. *)
Definition canon_row (province municipality : option string) (d : date)
    (tr dec : Z) (ha : option Z) : Canon.row :=
  DataManager.clean_merged_row
    {| Merged.case_columns :=
         {| Case.Version := 7;
            Case.Date_of_report := "2023-03-31 10:00:00";
            Case.Date_of_publication := d;
            Case.Municipality_code := None;
            Case.Municipality_name := municipality;
            Case.Province := province;
            Case.Security_region_code := Some "VR00";
            Case.Security_region_name := None;
            Case.Municipal_health_service := None;
            Case.ROAZ_region := None;
            Case.Total_reported := tr;
            Case.Deceased := dec |};
       Merged.Hospital_admission := ha |}.

(** A merged row of the first of January of the year 999. *)
Definition merged_year_999 : Merged.row :=
  Merged.Row (case_row "Rotterdam" "GM0599" (Date 999 1 1) 0 0) None.

Definition utrecht_a : Canon.row :=
  canon_row (Some "Utrecht") (Some "Utrecht") (Date 2022 1 5) 40 1 (Some 2).
Definition utrecht_b : Canon.row :=
  canon_row (Some "Utrecht") (Some "Amersfoort") (Date 2022 3 9) 12 0 None.
Definition drenthe_a : Canon.row :=
  canon_row (Some "Drenthe") (Some "Assen") (Date 2022 1 5) 7 0 (Some 1).
Definition drenthe_old : Canon.row :=
  canon_row (Some "Drenthe") (Some "Assen") (Date 2021 12 30) 9 2 (Some 3).
Definition utrecht_old : Canon.row :=
  canon_row (Some "Utrecht") (Some "Utrecht") (Date 2021 6 1) 5 0 None.

(** A canonical table with two provinces and two years. *)
Definition canon_df : list Canon.row :=
  [utrecht_a; drenthe_a; utrecht_old; utrecht_b; drenthe_old].

(** A record of an unknown province, with nothing reported. *)
Definition unknown_zero : Canon.row :=
  canon_row None None (Date 2022 1 5) 0 0 None.

(** A record of an unknown province, with five cases reported. *)
Definition unknown_five : Canon.row :=
  canon_row None None (Date 2022 1 5) 5 0 None.

(** An aggregated view in which two provinces have the same total. *)
Definition tied_df : list agg_row :=
  [AggRow (CStr "Drenthe") [(Total_reported, 5)];
   AggRow (CStr "Utrecht") [(Total_reported, 5)];
   AggRow (CStr "Zeeland") [(Total_reported, 3)]].

(** A web on which the four downloads succeed: each current file holds
    rows, the historical tails are empty. *)
Definition read_case_csv (url : string) : option (list Case.row) :=
  if decide (url = "https://data.rivm.nl/covid-19/COVID-19_aantallen_gemeente_per_dag.csv")
  then Some [rotterdam; schiedam]
  else if decide (url = "https://data.rivm.nl/covid-19/COVID-19_aantallen_gemeente_per_dag_tm_03102021.csv")
  then Some []
  else None.

Definition read_hospital_csv (url : string) : option (list Hosp.row) :=
  if decide (url = "https://data.rivm.nl/covid-19/COVID-19_ziekenhuisopnames.csv")
  then Some [hosp_row "GM0599" (Date 2022 1 5) 4]
  else if decide (url = "https://data.rivm.nl/data/covid-19/COVID-19_ziekenhuisopnames_tm_03102021.csv")
  then Some []
  else None.

(** A web on which every download fails. *)
Definition read_nothing {A : Type} (url : string) : option (list A) := None.

(** The folder after the sample table is saved into an empty one. *)
Definition saved_fs : gmap string (list Canon.row) :=
  DataManager._save_clean_data ∅ canon_df.

(** Widget values: the year 2022, the province Utrecht, every metric
    checked, no breakdown, no sorting. *)
Definition widgets_utrecht : PlotTemplate.widget_values :=
  {| PlotTemplate.wv_year := "2022";
     PlotTemplate.wv_province := "Utrecht";
     PlotTemplate.wv_total_reported := true;
     PlotTemplate.wv_hospital_admission := true;
     PlotTemplate.wv_deceased := true;
     PlotTemplate.wv_municipality := false;
     PlotTemplate.wv_month := false;
     PlotTemplate.wv_sort_by := "Total_reported";
     PlotTemplate.wv_sort_order := "Ascending";
     PlotTemplate.wv_sort_data := false;
     PlotTemplate.wv_date_format := "Date_of_statistics" |}.

(** The same widget values with the year 2099, for which no file exists. *)
Definition widgets_2099 : PlotTemplate.widget_values :=
  {| PlotTemplate.wv_year := "2099";
     PlotTemplate.wv_province := "Utrecht";
     PlotTemplate.wv_total_reported := true;
     PlotTemplate.wv_hospital_admission := true;
     PlotTemplate.wv_deceased := true;
     PlotTemplate.wv_municipality := false;
     PlotTemplate.wv_month := false;
     PlotTemplate.wv_sort_by := "Total_reported";
     PlotTemplate.wv_sort_order := "Ascending";
     PlotTemplate.wv_sort_data := false;
     PlotTemplate.wv_date_format := "Date_of_statistics" |}.

End Sample.

(** * Properties *)

(** ** The primitives on sample values *)

Example lower_alltime : Py.lower "Alltime" = "alltime".
Proof. reflexivity. Qed.

Example zfill_month : Py.zfill 2 (Py.str 7) = "07".
Proof. reflexivity. Qed.

Example isoweek_2021_01_03 : Calendar.isoweek (Date 2021 1 3) = 53.
Proof. reflexivity. Qed.

Example isoweek_2022_01_05 : Calendar.isoweek (Date 2022 1 5) = 1.
Proof. reflexivity. Qed.

Example isoweek_2024_12_30 : Calendar.isoweek (Date 2024 12 30) = 1.
Proof. reflexivity. Qed.

(** ** Sums *)

Lemma sum_app (l1 l2 : list Z) : Py.sum (l1 ++ l2) = Py.sum l1 + Py.sum l2.
Proof. induction l1 as [|x l1 IH]; simpl; [reflexivity | rewrite IH; lia]. Qed.

Lemma nansum_cons (x : option Z) (l : list (option Z)) :
  Py.nansum (x :: l) = default 0 x + Py.nansum l.
Proof. unfold Py.nansum. destruct x; simpl; reflexivity. Qed.

Lemma nansum_app (l1 l2 : list (option Z)) :
  Py.nansum (l1 ++ l2) = Py.nansum l1 + Py.nansum l2.
Proof.
  induction l1 as [|x l1 IH]; [reflexivity|].
  simpl app. rewrite !nansum_cons, IH. lia.
Qed.

(** ** Grouping *)

Section groupby_facts.
Context {R K : Type} `{EqDecision K}.
Variable by_ : R → option K.
Variable leb : K → K → bool.

Lemma insert_sorted_perm (k : K) (ks : list K) :
  insert_sorted leb k ks ≡ₚ k :: ks.
Proof.
  induction ks as [|h t IH]; simpl; [reflexivity|].
  destruct (leb k h); [reflexivity|].
  rewrite IH. apply Permutation_swap.
Qed.

Lemma sort_keys_perm (ks : list K) : sort_keys leb ks ≡ₚ ks.
Proof.
  induction ks as [|h t IH]; simpl; [reflexivity|].
  rewrite insert_sorted_perm. by rewrite IH.
Qed.

(** One group per distinct key. *)
Lemma group_keys_NoDup (df : list R) : NoDup (group_keys by_ leb df).
Proof.
  unfold group_keys. rewrite sort_keys_perm. apply NoDup_remove_dups.
Qed.

(** The groups are the non-null keys observed in the frame. *)
Lemma elem_of_group_keys (df : list R) (k : K) :
  k ∈ group_keys by_ leb df ↔ ∃ r, r ∈ df ∧ by_ r = Some k.
Proof.
  unfold group_keys. rewrite sort_keys_perm, elem_of_remove_dups.
  apply list_elem_of_omap.
Qed.

Lemma group_rows_cons (r : R) (df : list R) (k : K) :
  group_rows by_ (r :: df) k =
  if decide (by_ r = Some k) then r :: group_rows by_ df k
  else group_rows by_ df k.
Proof. unfold group_rows. rewrite filter_cons. reflexivity. Qed.

Lemma elem_of_group_rows (df : list R) (k : K) (r : R) :
  r ∈ group_rows by_ df k ↔ r ∈ df ∧ by_ r = Some k.
Proof. unfold group_rows. rewrite list_elem_of_filter. tauto. Qed.

Lemma map_fst_groupby (df : list R) :
  map fst (groupby by_ leb df) = group_keys by_ leb df.
Proof.
  unfold groupby. rewrite map_map. simpl. apply map_id.
Qed.

Lemma elem_of_groupby (df : list R) (g : K * list R) :
  g ∈ groupby by_ leb df ↔
  g.1 ∈ group_keys by_ leb df ∧ g.2 = group_rows by_ df g.1.
Proof.
  unfold groupby. rewrite list_elem_of_fmap. split.
  - intros (k & -> & Hk). by simpl.
  - intros [Hk Hg]. exists g.1. split; [|done].
    destruct g as [k rows]. simpl in *. by subst.
Qed.

(** The contribution of one row to the per-group sums: a row with a key
    among the (distinct) group keys is counted in exactly one group. *)
Lemma sum_one_key (v : Z) (o : option K) (k0 : K) (ks : list K) :
  NoDup ks → o = Some k0 → k0 ∈ ks →
  Py.sum (map (λ k, if decide (o = Some k) then v else 0) ks) = v.
Proof.
  intros Hnd ->. induction Hnd as [|k ks Hk Hnd IH]; intros Hin.
  - by apply not_elem_of_nil in Hin.
  - simpl. apply elem_of_cons in Hin as [->|Hin].
    + rewrite decide_True by done.
      assert (Py.sum (map (λ k1, if decide (Some k = Some k1) then v else 0) ks) = 0)
        as ->; [|lia].
      clear IH Hnd. induction ks as [|k1 ks IH]; [reflexivity|]. simpl.
      rewrite decide_False.
      * rewrite IH; [lia|]. intros ?. apply Hk. by right.
      * intros [= ->]. apply Hk. by left.
    + rewrite decide_False; [rewrite IH; [lia|done]|].
      intros [= ->]. done.
Qed.

Lemma sum_no_key (v : Z) (o : option K) (ks : list K) :
  o = None →
  Py.sum (map (λ k, if decide (o = Some k) then v else 0) ks) = 0.
Proof.
  intros ->. induction ks as [|k ks IH]; [reflexivity|].
  simpl in *. lia.
Qed.

(** The groups partition the rows that have a key. *)
Lemma sum_groups (f : R → Z) (ks : list K) (df : list R) :
  NoDup ks →
  (∀ r k, r ∈ df → by_ r = Some k → k ∈ ks) →
  Py.sum (map (λ k, Py.sum (map f (group_rows by_ df k))) ks) =
  Py.sum (map f (filter (λ r, is_Some (by_ r)) df)).
Proof.
  intros Hnd. induction df as [|r df IH]; intros Hks.
  - clear. induction ks as [|k ks IHk]; [reflexivity|]. simpl in *. lia.
  - assert (Py.sum (map (λ k, Py.sum (map f (group_rows by_ (r :: df) k))) ks) =
            Py.sum (map (λ k, if decide (by_ r = Some k) then f r else 0) ks) +
            Py.sum (map (λ k, Py.sum (map f (group_rows by_ df k))) ks)) as ->.
    { clear. induction ks as [|k ks IHk]; [reflexivity|].
      simpl. rewrite IHk, group_rows_cons.
      destruct (decide (by_ r = Some k)); simpl; lia. }
    rewrite IH by (intros r' k ? ?; apply (Hks r' k); [by right|done]).
    rewrite filter_cons. destruct (decide (is_Some (by_ r))) as [[k0 Hr]|Hr].
    + simpl. rewrite (sum_one_key (f r) (by_ r) k0); [lia|done..|].
      apply (Hks r k0); [by left|done].
    + rewrite sum_no_key; [lia|]. by apply eq_None_not_Some.
Qed.
End groupby_facts.

(** ** Aggregation *)

Lemma nansum_map {A : Type} (g : A → option Z) (l : list A) :
  Py.nansum (map g l) = Py.sum (map (λ x, default 0 (g x)) l).
Proof.
  induction l as [|x l IH]; [reflexivity|].
  simpl map. rewrite nansum_cons, IH. reflexivity.
Qed.

Lemma lookup_sum_map (m : metric) (F : metric → Z) (ms : list metric) :
  m ∈ ms → lookup_sum m (map (λ m', (m', F m')) ms) = Some (F m).
Proof.
  induction ms as [|m' ms IH]; intros Hin.
  - by apply not_elem_of_nil in Hin.
  - simpl. destruct (decide (m' = m)) as [->|Hne]; [reflexivity|].
    apply IH. apply elem_of_cons in Hin as [->|Hin]; done.
Qed.

(** The total of a metric splits over the rows with and without a value in
    the grouping column. *)
Lemma metric_total_split (m : metric) (d : dimension) (df : list Canon.row) :
  metric_total m df =
  metric_total m (filter (λ r, is_Some (dimension_cell d r)) df) +
  metric_total m (filter (λ r, dimension_cell d r = None) df).
Proof.
  unfold metric_total. induction df as [|r df IH]; [reflexivity|].
  rewrite !filter_cons. simpl map. rewrite nansum_cons, IH.
  destruct (dimension_cell d r) as [c|] eqn:Hc.
  - rewrite decide_True by eauto. rewrite decide_False by done.
    simpl map. rewrite nansum_cons. lia.
  - rewrite decide_False by (by intros [? ?]). rewrite decide_True by done.
    simpl map. rewrite nansum_cons. lia.
Qed.

(** The cell of metric [m] in each aggregated row. *)
Lemma map_agg_value (df : list Canon.row) (ms : list metric) (d : dimension)
    (m : metric) :
  m ∈ ms →
  map (agg_value m) (DataManager.aggregate_data df ms d) =
  map (λ k, Some (metric_total m (group_rows (dimension_cell d) df k)))
      (group_keys (dimension_cell d) cell_leb df).
Proof.
  intros Hm. unfold DataManager.aggregate_data, groupby.
  rewrite !map_map. apply map_ext. intros k. unfold agg_value. simpl.
  by rewrite (lookup_sum_map m
    (λ m', Py.nansum (map (metric_cell m') (group_rows (dimension_cell d) df k)))).
Qed.

Lemma map_agg_key (df : list Canon.row) (ms : list metric) (d : dimension) :
  map agg_key (DataManager.aggregate_data df ms d) =
  group_keys (dimension_cell d) cell_leb df.
Proof.
  unfold DataManager.aggregate_data, groupby. rewrite !map_map. apply map_id.
Qed.

(** The total of a summed column is the metric's total over the rows that
    have a value in the grouping column. *)
Lemma agg_total_keyed (df : list Canon.row) (ms : list metric) (d : dimension)
    (m : metric) :
  m ∈ ms →
  agg_total m (DataManager.aggregate_data df ms d) =
  metric_total m (filter (λ r, is_Some (dimension_cell d r)) df).
Proof.
  intros Hm. unfold agg_total. rewrite map_agg_value by done.
  rewrite nansum_map. simpl. unfold metric_total.
  rewrite (nansum_map (metric_cell m) (filter _ df)).
  rewrite <- (sum_groups (dimension_cell d) (λ r, default 0 (metric_cell m r))
                (group_keys (dimension_cell d) cell_leb df) df).
  - f_equal. apply map_ext. intros k. apply nansum_map.
  - apply group_keys_NoDup.
  - intros r k Hr Hk. apply elem_of_group_keys. eauto.
Qed.




(** C10 (as amended).  [aggregate_data] leaves out the rows whose value in
    the grouping column is null: every row of the aggregated view stands for a
    non-null value observed in the input and holds the metric's sum over the
    rows with exactly that value, so the total of a summed column is the
    input's total minus the metric's total over the rows without a value.  It
    is strictly less than the input's total exactly when that last total is
    positive. *)
Theorem aggregate_data_drops_null_dimension (df : list Canon.row)
    (ms : list metric) (d : dimension) (m : metric) :
  m ∈ ms →
  (∀ a, a ∈ DataManager.aggregate_data df ms d →
     (∃ r, r ∈ df ∧ dimension_cell d r = Some (agg_key a))
     ∧ agg_value m a =
       Some (metric_total m (filter (λ r, dimension_cell d r = Some (agg_key a)) df)))
  ∧ agg_total m (DataManager.aggregate_data df ms d) =
    metric_total m df - metric_total m (filter (λ r, dimension_cell d r = None) df)
  ∧ (agg_total m (DataManager.aggregate_data df ms d) < metric_total m df
     ↔ 0 < metric_total m (filter (λ r, dimension_cell d r = None) df)).
Proof.
  intros Hm.
  assert (agg_total m (DataManager.aggregate_data df ms d) =
          metric_total m df
          - metric_total m (filter (λ r, dimension_cell d r = None) df)) as Htotal.
  { rewrite agg_total_keyed by done. rewrite (metric_total_split m d df). lia. }
  split; [|split; [exact Htotal | lia]].
  intros a Ha. unfold DataManager.aggregate_data in Ha.
  apply list_elem_of_fmap in Ha as (g & -> & Hg).
  apply elem_of_groupby in Hg as [Hk Hrows]. simpl. split.
  - by apply elem_of_group_keys in Hk.
  - unfold agg_value. simpl.
    rewrite (lookup_sum_map m (λ m', Py.nansum (map (metric_cell m') g.2))) by done.
    by rewrite Hrows.
Qed.

Lemma aggregate_data_drops_null_dimension_witness :
  (∀ a, a ∈ DataManager.aggregate_data (Sample.unknown_five :: Sample.canon_df)
              [Total_reported] Province →
     (∃ r, r ∈ Sample.unknown_five :: Sample.canon_df
           ∧ dimension_cell Province r = Some (agg_key a))
     ∧ agg_value Total_reported a =
       Some (metric_total Total_reported
               (filter (λ r, dimension_cell Province r = Some (agg_key a))
                  (Sample.unknown_five :: Sample.canon_df))))
  ∧ agg_total Total_reported
      (DataManager.aggregate_data (Sample.unknown_five :: Sample.canon_df)
         [Total_reported] Province) =
    metric_total Total_reported (Sample.unknown_five :: Sample.canon_df)
    - metric_total Total_reported
        (filter (λ r, dimension_cell Province r = None)
           (Sample.unknown_five :: Sample.canon_df))
  ∧ (agg_total Total_reported
       (DataManager.aggregate_data (Sample.unknown_five :: Sample.canon_df)
          [Total_reported] Province)
     < metric_total Total_reported (Sample.unknown_five :: Sample.canon_df)
     ↔ 0 < metric_total Total_reported
             (filter (λ r, dimension_cell Province r = None)
                (Sample.unknown_five :: Sample.canon_df))).
Proof.
  apply (aggregate_data_drops_null_dimension
           (Sample.unknown_five :: Sample.canon_df) [Total_reported]
           Province Total_reported).
  apply list_elem_of_here.
Defined.

(** C10, the claim as stated, fails on a table whose only row has no province
    and nothing reported: the grouping column has a missing value, yet the
    aggregated total is not strictly less than the input's total. *)
Lemma aggregate_data_drops_null_dimension_counterexample :
  (∃ r, r ∈ [Sample.unknown_zero] ∧ dimension_cell Province r = None)
  ∧ ¬ (agg_total Total_reported
         (DataManager.aggregate_data [Sample.unknown_zero] [Total_reported] Province)
       < metric_total Total_reported [Sample.unknown_zero]).
Proof.
  split.
  - exists Sample.unknown_zero. split; [apply list_elem_of_here | reflexivity].
  - vm_compute. intros H. discriminate H.
Qed.

(** ** The aggregation policy of the plots *)

(** C8.  The grouping column is chosen by precedence: [Country] when the
    province selection is ["Netherlands"] and no month grouping is asked for;
    otherwise [Municipality_name] when the municipality breakdown is asked
    for; otherwise [Month_of_statistics] when the month breakdown is asked
    for; otherwise [Province].  For every combination of the inputs exactly
    one of the four columns is the one the data is aggregated on. *)
Theorem aggregate_data_dimension_precedence (self : PlotTemplate.widget_values) :
  ∃ d : dimension,
    (∀ filtered_df metrics_to_aggregate,
       PlotTemplate.aggregate_data self filtered_df metrics_to_aggregate =
       DataManager.aggregate_data filtered_df metrics_to_aggregate d)
    ∧ (d = Country ↔
         PlotTemplate.wv_province self = "Netherlands"
         ∧ PlotTemplate.wv_month self = false)
    ∧ (d = Municipality_name ↔
         ¬ (PlotTemplate.wv_province self = "Netherlands"
            ∧ PlotTemplate.wv_month self = false)
         ∧ PlotTemplate.wv_municipality self = true)
    ∧ (d = Month_of_statistics ↔
         ¬ (PlotTemplate.wv_province self = "Netherlands"
            ∧ PlotTemplate.wv_month self = false)
         ∧ PlotTemplate.wv_municipality self = false
         ∧ PlotTemplate.wv_month self = true)
    ∧ (d = Province ↔
         ¬ (PlotTemplate.wv_province self = "Netherlands"
            ∧ PlotTemplate.wv_month self = false)
         ∧ PlotTemplate.wv_municipality self = false
         ∧ PlotTemplate.wv_month self = false).
Proof.
  unfold PlotTemplate.aggregate_data.
  destruct (decide (PlotTemplate.wv_province self = "Netherlands")) as [Hp|Hp];
    destruct (PlotTemplate.wv_month self) eqn:Hm;
    destruct (PlotTemplate.wv_municipality self) eqn:Hmu;
    [ rewrite bool_decide_eq_true_2 by done
    | rewrite bool_decide_eq_true_2 by done
    | rewrite bool_decide_eq_true_2 by done
    | rewrite bool_decide_eq_true_2 by done
    | rewrite bool_decide_eq_false_2 by done
    | rewrite bool_decide_eq_false_2 by done
    | rewrite bool_decide_eq_false_2 by done
    | rewrite bool_decide_eq_false_2 by done ];
    simpl;
    eexists; (split; [intros; reflexivity|]);
    repeat split; try discriminate; try tauto; try (intros [? ?]; tauto);
    try (intros (? & ? & ?); try tauto; discriminate);
    try (intros [? ?]; discriminate).
Qed.

(** ** Text *)

Lemma string_length_app (s t : string) :
  String.length (s +:+ t) = (String.length s + String.length t)%nat.
Proof. induction s as [|c s IH]; simpl; [reflexivity | by rewrite IH]. Qed.

Lemma all_digits_app (s t : string) :
  Py.all_digits (s +:+ t) = Py.all_digits s && Py.all_digits t.
Proof.
  induction s as [|c s IH]; simpl; [reflexivity|].
  rewrite IH. by rewrite andb_assoc.
Qed.

Lemma length_zeros (n : nat) : String.length (Py.zeros n) = n.
Proof. induction n as [|n IH]; simpl; [reflexivity | by rewrite IH]. Qed.

Lemma all_digits_zeros (n : nat) : Py.all_digits (Py.zeros n) = true.
Proof. induction n as [|n IH]; simpl; [reflexivity | exact IH]. Qed.

Lemma app_inj_r (s1 s2 t : string) : s1 +:+ t = s2 +:+ t → s1 = s2.
Proof.
  intros Heq.
  assert (String.length s1 = String.length s2) as Hlen.
  { apply (f_equal String.length) in Heq. rewrite !string_length_app in Heq. lia. }
  revert s2 Heq Hlen. induction s1 as [|c s1 IH]; intros [|c' s2] Heq Hlen;
    simpl in Hlen; try discriminate; [reflexivity|].
  injection Heq as -> Heq. f_equal. apply IH; [done | lia].
Qed.

Lemma lower_ascii_idemp (c : ascii) :
  Py.lower_ascii (Py.lower_ascii c) = Py.lower_ascii c.
Proof. destruct c as [[] [] [] [] [] [] [] []]; reflexivity. Qed.

Lemma lower_idemp (s : string) : Py.lower (Py.lower s) = Py.lower s.
Proof.
  induction s as [|c s IH]; simpl; [reflexivity|].
  by rewrite lower_ascii_idemp, IH.
Qed.

(** The decimal text of a natural number holds digits only. *)
Lemma pretty_N_go_digits (x : N) (s : string) :
  ∃ p, pretty_N_go x s = p +:+ s ∧ Py.all_digits p = true.
Proof.
  revert s. induction (N.lt_wf_0 x) as [x _ IH]; intros s.
  assert (x = 0 ∨ 0 < x)%N as [->|Hpos] by lia.
  - exists "". by rewrite pretty_N_go_0.
  - rewrite pretty_N_go_step by done.
    destruct (IH (x `div` 10)%N (N.div_lt x 10 Hpos eq_refl)
                (String (pretty_N_char (x `mod` 10)) s)) as (p & -> & Hp).
    exists (p +:+ String (pretty_N_char (x `mod` 10)) "").
    split.
    + clear. generalize (pretty_N_char (x `mod` 10)). intros a.
      induction p as [|c p IHp]; [reflexivity|].
      change (String c (p +:+ String a s) = String c ((p +:+ String a "") +:+ s)).
      by rewrite IHp.
    + rewrite all_digits_app, Hp. simpl.
      assert (x `mod` 10 < 10)%N as Hlt by (apply N.mod_lt; lia).
      unfold pretty_N_char. by repeat case_match.
Qed.

Lemma str_digits (n : Z) : 0 <= n → Py.all_digits (Py.str n) = true.
Proof.
  intros Hn. unfold Py.str, pretty, pretty_Z. destruct n as [|p|p]; [reflexivity| |lia].
  unfold pretty, pretty_positive, pretty, pretty_N.
  rewrite decide_False by lia.
  destruct (pretty_N_go_digits (N.pos p) "") as (q & -> & Hq).
  by rewrite all_digits_app, Hq.
Qed.

Lemma str_inj (a b : Z) : Py.str a = Py.str b → a = b.
Proof. apply pretty_Z_inj. Qed.

Lemma csv_path_inj (a b : string) :
  DataManager.csv_path a = DataManager.csv_path b → a = b.
Proof.
  unfold DataManager.csv_path. intros Heq.
  do 3 apply String.app_inj in Heq. by apply app_inj_r in Heq.
Qed.

(** ** Loading a persisted year *)

Lemma pull_data_found (fs : gmap string (list Canon.row)) (year : string)
    (df : list Canon.row) :
  fs !! DataManager.csv_path (Py.lower year) = Some df →
  DataManager.pull_data fs year = Outcome [] (inr df).
Proof.
  intros Hfile. unfold DataManager.pull_data, DataManager.read_csv.
  by rewrite Hfile.
Qed.

(** C2 (the code at a year without a file).  When the folder holds no file
    for the requested year, [pull_data] prints its notice and then raises
    [AttributeError]: the module attribute it names for the empty table,
    [Dataframe], does not exist.  The error reaches the caller of
    [filter_data] as well, for every province. *)
Theorem pull_data_missing_year_raises (fs : gmap string (list Canon.row))
    (year : string) :
  fs !! DataManager.csv_path (Py.lower year) = None →
  DataManager.pull_data fs year =
    Outcome ["No data found for year " +:+ year]
      (inl (AttributeError "module 'pandas' has no attribute 'Dataframe'"))
  ∧ ∀ province,
      DataManager.filter_data fs year province =
        Outcome ["No data found for year " +:+ Py.lower year]
          (inl (AttributeError "module 'pandas' has no attribute 'Dataframe'")).
Proof.
  intros Hfile. split.
  - unfold DataManager.pull_data, DataManager.read_csv. by rewrite Hfile.
  - intros province. unfold DataManager.filter_data, DataManager.pull_data,
      DataManager.read_csv.
    rewrite lower_idemp, Hfile. reflexivity.
Qed.

Lemma pull_data_missing_year_raises_witness :
  DataManager.pull_data ∅ "2099" =
    Outcome ["No data found for year 2099"]
      (inl (AttributeError "module 'pandas' has no attribute 'Dataframe'"))
  ∧ ∀ province,
      DataManager.filter_data ∅ "2099" province =
        Outcome ["No data found for year 2099"]
          (inl (AttributeError "module 'pandas' has no attribute 'Dataframe'")).
Proof.
  apply (pull_data_missing_year_raises ∅ "2099"). reflexivity.
Defined.

(** ** Persisting and filtering *)

Lemma str_ne_alltime (y : Z) : Py.str y ≠ "alltime".
Proof.
  destruct y as [|p|p].
  - discriminate.
  - intros Heq. pose proof (str_digits (Z.pos p) ltac:(lia)) as Hd.
    rewrite Heq in Hd. discriminate Hd.
  - discriminate.
Qed.

Lemma group_rows_year (df : list Canon.row) (y : Z) :
  group_rows (λ r, Some (Canon.Year_of_statistics r)) df y =
  filter (λ r, Canon.Year_of_statistics r = y) df.
Proof.
  unfold group_rows. apply list_filter_iff. intros r. split; congruence.
Qed.

(** The file of a year after the yearly segments of [df] are written. *)
Lemma lookup_year_segments (df : list Canon.row) (gs : list (Z * list Canon.row))
    (fs : gmap string (list Canon.row)) (y : Z) :
  (∀ g, g ∈ gs → g.2 = filter (λ r, Canon.Year_of_statistics r = g.1) df) →
  foldl (λ acc g, DataManager.to_csv acc (DataManager.csv_path (Py.str g.1)) g.2)
        fs gs !! DataManager.csv_path (Py.str y) =
  if decide (y ∈ map fst gs)
  then Some (filter (λ r, Canon.Year_of_statistics r = y) df)
  else fs !! DataManager.csv_path (Py.str y).
Proof.
  induction gs as [|g gs IH] using rev_ind; intros Hgs; [reflexivity|].
  rewrite foldl_app. simpl. unfold DataManager.to_csv at 1.
  destruct (decide (g.1 = y)) as [Hy|Hy].
  - rewrite Hy, lookup_insert_eq.
    rewrite decide_True.
    + rewrite <- Hy. f_equal. apply Hgs. apply elem_of_app. right. by left.
    + rewrite map_app. apply elem_of_app. right. rewrite <- Hy. by left.
  - rewrite lookup_insert_ne
      by (intros Heq; apply Hy; by apply str_inj, csv_path_inj).
    rewrite IH by (intros g' ?; apply Hgs, elem_of_app; by left).
    destruct (decide (y ∈ map fst gs)) as [Hin|Hin].
    + rewrite decide_True; [done|]. rewrite map_app. apply elem_of_app. by left.
    + rewrite decide_False; [done|]. rewrite map_app. intros Hin'.
      apply elem_of_app in Hin' as [?|Hin']; [done|].
      simpl in Hin'. apply elem_of_cons in Hin' as [?|Hin']; [by apply Hy|].
      by apply not_elem_of_nil in Hin'.
Qed.

(** After a refresh, the file of a year with records holds exactly the
    records of that year. *)
Lemma lookup_save_year (fs : gmap string (list Canon.row)) (df : list Canon.row)
    (y : Z) :
  (∃ r, r ∈ df ∧ Canon.Year_of_statistics r = y) →
  DataManager._save_clean_data fs df !! DataManager.csv_path (Py.str y) =
  Some (filter (λ r, Canon.Year_of_statistics r = y) df).
Proof.
  intros (r & Hr & Hy). unfold DataManager._save_clean_data.
  unfold DataManager.to_csv at 1.
  rewrite lookup_insert_ne
    by (intros Heq; apply csv_path_inj in Heq; symmetry in Heq;
        by apply str_ne_alltime in Heq).
  rewrite (lookup_year_segments df).
  - rewrite decide_True; [done|]. rewrite map_fst_groupby.
    apply elem_of_group_keys. exists r. split; [done | by rewrite Hy].
  - intros g Hg. apply elem_of_groupby in Hg as [_ ->]. apply group_rows_year.
Qed.

(** C7.  When the file of the requested year exists, [filter_data] returns
    the loaded table unrestricted for the province values ["Netherlands"] and
    ["All provinces"], and otherwise exactly the loaded rows, in order, whose
    [Province] is the given province.  When the folder was written by a
    refresh from a table with records of the requested year, the loaded table
    holds exactly that year's records, so every returned row has that
    [Year_of_statistics]. *)
Theorem filter_data_by_province (fs : gmap string (list Canon.row))
    (year province : string) (df : list Canon.row) :
  fs !! DataManager.csv_path (Py.lower year) = Some df →
  ∃ selected,
    DataManager.filter_data fs year province = Outcome [] (inr selected)
    ∧ (province ∈ ["Netherlands"; "All provinces"] → selected = df)
    ∧ (province ∉ ["Netherlands"; "All provinces"] →
         selected = filter (λ r, Canon.Province r = Some province) df
         ∧ ∀ r, r ∈ selected ↔ r ∈ df ∧ Canon.Province r = Some province)
    ∧ (∀ fs0 merged_dataframe y,
         fs = DataManager._save_clean_data fs0 merged_dataframe →
         Py.lower year = Py.str y →
         (∃ r, r ∈ merged_dataframe ∧ Canon.Year_of_statistics r = y) →
         df = filter (λ r, Canon.Year_of_statistics r = y) merged_dataframe
         ∧ ∀ r, r ∈ selected → Canon.Year_of_statistics r = y).
Proof.
  intros Hfile.
  assert (DataManager.pull_data fs (Py.lower year) = Outcome [] (inr df)) as Hpull.
  { apply pull_data_found. by rewrite lower_idemp. }
  assert (∀ fs0 merged_dataframe y,
            fs = DataManager._save_clean_data fs0 merged_dataframe →
            Py.lower year = Py.str y →
            (∃ r, r ∈ merged_dataframe ∧ Canon.Year_of_statistics r = y) →
            df = filter (λ r, Canon.Year_of_statistics r = y) merged_dataframe)
    as Hsaved.
  { intros fs0 merged y -> Hyear Hrows.
    rewrite Hyear, lookup_save_year in Hfile by done. congruence. }
  unfold DataManager.filter_data. rewrite Hpull. simpl.
  destruct (decide (province ∈ ["Netherlands"; "All provinces"])) as [Hp|Hp].
  - rewrite bool_decide_eq_true_2 by done. exists df.
    split; [done|]. split; [done|]. split; [done|].
    intros fs0 merged y Hfs Hyear Hrows. split; [by eapply Hsaved|].
    intros r Hr. rewrite (Hsaved fs0 merged y Hfs Hyear Hrows) in Hr.
    by apply list_elem_of_filter in Hr as [? _].
  - rewrite bool_decide_eq_false_2 by done.
    exists (filter (λ r, Canon.Province r = Some province) df).
    split; [done|]. split; [done|]. split.
    + intros _. split; [done|]. intros r. rewrite list_elem_of_filter. tauto.
    + intros fs0 merged y Hfs Hyear Hrows. split; [by eapply Hsaved|].
      intros r Hr. apply list_elem_of_filter in Hr as [_ Hr].
      rewrite (Hsaved fs0 merged y Hfs Hyear Hrows) in Hr.
      by apply list_elem_of_filter in Hr as [? _].
Qed.

Lemma filter_data_by_province_witness :
  ∃ selected,
    DataManager.filter_data (DataManager._save_clean_data ∅ Sample.canon_df)
      "2022" "Utrecht" = Outcome [] (inr selected)
    ∧ ("Utrecht" ∈ ["Netherlands"; "All provinces"] →
         selected = [Sample.utrecht_a; Sample.drenthe_a; Sample.utrecht_b])
    ∧ ("Utrecht" ∉ ["Netherlands"; "All provinces"] →
         selected = filter (λ r, Canon.Province r = Some "Utrecht")
                      [Sample.utrecht_a; Sample.drenthe_a; Sample.utrecht_b]
         ∧ ∀ r, r ∈ selected ↔
                r ∈ [Sample.utrecht_a; Sample.drenthe_a; Sample.utrecht_b]
                ∧ Canon.Province r = Some "Utrecht")
    ∧ (∀ fs0 merged_dataframe y,
         DataManager._save_clean_data ∅ Sample.canon_df =
           DataManager._save_clean_data fs0 merged_dataframe →
         Py.lower "2022" = Py.str y →
         (∃ r, r ∈ merged_dataframe ∧ Canon.Year_of_statistics r = y) →
         [Sample.utrecht_a; Sample.drenthe_a; Sample.utrecht_b] =
           filter (λ r, Canon.Year_of_statistics r = y) merged_dataframe
         ∧ ∀ r, r ∈ selected → Canon.Year_of_statistics r = y).
Proof.
  apply (filter_data_by_province
           (DataManager._save_clean_data ∅ Sample.canon_df) "2022" "Utrecht"
           [Sample.utrecht_a; Sample.drenthe_a; Sample.utrecht_b]).
  vm_compute. reflexivity.
Defined.

(** The scenario of C7 evaluated: the query for Utrecht in 2022 on the
    persisted sample returns the two Utrecht records of 2022. *)
Example filter_data_utrecht_2022 :
  DataManager.filter_data (DataManager._save_clean_data ∅ Sample.canon_df)
    "2022" "Utrecht" = Outcome [] (inr [Sample.utrecht_a; Sample.utrecht_b]).
Proof. vm_compute. reflexivity. Qed.

(** ** The repair of the case table *)

(** C1 (the code on the scenario).  On the table of the two rows of Brielle
    (5 reported, deceased count suppressed as 9999) and Hellevoetsluis
    (3 reported, 1 deceased) with one group key, the repair returns the single
    row of Voorne aan zee, code GM1992, with 8 reported, and with a deceased
    count of 10000: the suppressed value is summed before the outliers are
    reset, and the sum no longer equals 9999. *)
Theorem clean_case_data_sums_suppressed_value :
  DataManager._clean_case_data
    [Sample.case_row "Brielle" "GM0501" (Date 2022 1 5) 5 9999;
     Sample.case_row "Hellevoetsluis" "GM0530" (Date 2022 1 5) 3 1]
  = [Sample.case_row "Voorne aan zee" "GM1992" (Date 2022 1 5) 8 10000].
Proof. vm_compute. reflexivity. Qed.

(** ** The merge *)

Lemma matches_at_most_one (c : Case.row) (hospital_df : list Hosp.row) :
  NoDup (map join_key hospital_df) →
  (List.length (DataManager.matches c hospital_df) ≤ 1)%nat.
Proof.
  unfold DataManager.matches. induction hospital_df as [|h hs IH]; intros Hnd.
  - simpl. lia.
  - simpl in Hnd. apply NoDup_cons in Hnd as [Hh Hnd].
    rewrite filter_cons. case_decide as Hm; [|by apply IH].
    assert (filter (λ h', Hosp.Date_of_statistics h' = Case.Date_of_publication c
                          ∧ Hosp.Municipality_code h' = Case.Municipality_code c)
                   hs = []) as ->; [|simpl; lia].
    destruct Hm as [Hd Hc].
    clear IH Hnd. induction hs as [|h' hs IH]; [reflexivity|].
    rewrite filter_cons, decide_False.
    + apply IH. intros Hin. apply Hh. simpl. by right.
    + intros [Hd' Hc']. apply Hh. simpl.
      replace (join_key h') with (join_key h); [by left|].
      unfold join_key. by rewrite Hd, Hc, Hd', Hc'.
Qed.

Lemma join_row_case_columns (hospital_df : list Hosp.row) (c : Case.row)
    (m : Merged.row) :
  m ∈ DataManager.join_row hospital_df c → Merged.case_columns m = c.
Proof.
  unfold DataManager.join_row.
  destruct (DataManager.matches c hospital_df) as [|h hs].
  - intros ->%list_elem_of_singleton. reflexivity.
  - intros (h' & -> & _)%list_elem_of_fmap. reflexivity.
Qed.

Lemma join_row_admission (hospital_df : list Hosp.row) (c : Case.row)
    (m : Merged.row) :
  m ∈ DataManager.join_row hospital_df c →
  (DataManager.matches c hospital_df = [] → Merged.Hospital_admission m = None)
  ∧ ∀ v, Merged.Hospital_admission m = Some v →
      ∃ h, h ∈ hospital_df
           ∧ Hosp.Date_of_statistics h = Case.Date_of_publication c
           ∧ Hosp.Municipality_code h = Case.Municipality_code c
           ∧ Hosp.Hospital_admission h = v.
Proof.
  unfold DataManager.join_row.
  destruct (DataManager.matches c hospital_df) as [|h hs] eqn:Hmatch.
  - intros ->%list_elem_of_singleton. split; [done|]. intros v [=].
  - intros (h' & -> & Hin)%list_elem_of_fmap. split; [done|].
    intros v [= <-]. exists h'. rewrite <- Hmatch in Hin.
    unfold DataManager.matches in Hin.
    apply list_elem_of_filter in Hin as [[? ?] ?]. done.
Qed.

Lemma elem_of_merge_data (case_df : list Case.row) (hospital_df : list Hosp.row)
    (m : Merged.row) :
  m ∈ DataManager._merge_data case_df hospital_df ↔
  ∃ c, c ∈ case_df ∧ m ∈ DataManager.join_row hospital_df c.
Proof.
  unfold DataManager._merge_data. rewrite list_elem_of_In, in_flat_map.
  split; intros (c & Hc & Hm); exists c; split; by apply list_elem_of_In.
Qed.

(** C3 (as amended).  When no two rows of the hospitalization table have the
    same key (date, municipality code), the merged table has exactly one row
    per row of the repaired case table, in the same order, so the row counts
    are equal.  In every merged row the admission value is null when no
    hospitalization row has the key of its case row, and a non-null admission
    value is the one of a hospitalization row with that key; hospitalization
    rows with the key of no case row appear nowhere. *)
Theorem merge_data_row_count (case_df : list Case.row)
    (hospital_df : list Hosp.row) :
  NoDup (map join_key hospital_df) →
  List.length (DataManager._merge_data case_df hospital_df) = List.length case_df
  ∧ map Merged.case_columns (DataManager._merge_data case_df hospital_df) = case_df
  ∧ ∀ m, m ∈ DataManager._merge_data case_df hospital_df →
      (DataManager.matches (Merged.case_columns m) hospital_df = [] →
         Merged.Hospital_admission m = None)
      ∧ ∀ v, Merged.Hospital_admission m = Some v →
          ∃ h, h ∈ hospital_df
               ∧ Hosp.Date_of_statistics h = Merged.Date_of_statistics m
               ∧ Hosp.Municipality_code h = Merged.Municipality_code m
               ∧ Hosp.Hospital_admission h = v.
Proof.
  intros Hnd.
  assert (map Merged.case_columns (DataManager._merge_data case_df hospital_df)
          = case_df) as Hcols.
  { unfold DataManager._merge_data.
    induction case_df as [|c cs IH]; [reflexivity|].
    simpl. rewrite map_app, IH. unfold DataManager.join_row.
    pose proof (matches_at_most_one c hospital_df Hnd) as Hone.
    destruct (DataManager.matches c hospital_df) as [|h [|h' hs]];
      [reflexivity | reflexivity | simpl in Hone; lia]. }
  split; [|split; [exact Hcols|]].
  - rewrite <- Hcols at 2. by rewrite length_map.
  - intros m (c & Hc & Hm)%elem_of_merge_data.
    unfold Merged.Date_of_statistics, Merged.Municipality_code.
    rewrite (join_row_case_columns hospital_df c m Hm).
    by apply join_row_admission.
Qed.

Lemma merge_data_row_count_witness :
  List.length (DataManager._merge_data [Sample.rotterdam; Sample.schiedam]
            [Sample.hosp_row "GM0599" (Date 2022 1 5) 4;
             Sample.hosp_row "GM0014" (Date 2022 1 5) 6])
  = List.length [Sample.rotterdam; Sample.schiedam]
  ∧ map Merged.case_columns
      (DataManager._merge_data [Sample.rotterdam; Sample.schiedam]
         [Sample.hosp_row "GM0599" (Date 2022 1 5) 4;
          Sample.hosp_row "GM0014" (Date 2022 1 5) 6])
    = [Sample.rotterdam; Sample.schiedam]
  ∧ ∀ m, m ∈ DataManager._merge_data [Sample.rotterdam; Sample.schiedam]
               [Sample.hosp_row "GM0599" (Date 2022 1 5) 4;
                Sample.hosp_row "GM0014" (Date 2022 1 5) 6] →
      (DataManager.matches (Merged.case_columns m)
         [Sample.hosp_row "GM0599" (Date 2022 1 5) 4;
          Sample.hosp_row "GM0014" (Date 2022 1 5) 6] = [] →
         Merged.Hospital_admission m = None)
      ∧ ∀ v, Merged.Hospital_admission m = Some v →
          ∃ h, h ∈ [Sample.hosp_row "GM0599" (Date 2022 1 5) 4;
                    Sample.hosp_row "GM0014" (Date 2022 1 5) 6]
               ∧ Hosp.Date_of_statistics h = Merged.Date_of_statistics m
               ∧ Hosp.Municipality_code h = Merged.Municipality_code m
               ∧ Hosp.Hospital_admission h = v.
Proof.
  apply (merge_data_row_count [Sample.rotterdam; Sample.schiedam]
           [Sample.hosp_row "GM0599" (Date 2022 1 5) 4;
            Sample.hosp_row "GM0014" (Date 2022 1 5) 6]).
  simpl. apply NoDup_cons. split; [|apply NoDup_singleton].
  intros Hin. apply list_elem_of_singleton in Hin. discriminate Hin.
Defined.

(** The merge on the sample: Rotterdam gets its admissions, Schiedam a null,
    and the hospitalization row of the municipality without a case row is
    dropped. *)
Example merge_data_sample :
  DataManager._merge_data [Sample.rotterdam; Sample.schiedam]
    [Sample.hosp_row "GM0599" (Date 2022 1 5) 4;
     Sample.hosp_row "GM0014" (Date 2022 1 5) 6]
  = [Merged.Row Sample.rotterdam (Some 4); Merged.Row Sample.schiedam None].
Proof. vm_compute. reflexivity. Qed.

(** C3, the claim as stated, fails when the hospitalization table holds two
    rows with one key: the left join repeats the case row once per match. *)
Lemma merge_data_row_count_counterexample :
  List.length (DataManager._merge_data [Sample.rotterdam]
            [Sample.hosp_row "GM0599" (Date 2022 1 5) 4;
             Sample.hosp_row "GM0599" (Date 2022 1 5) 4])
  ≠ List.length [Sample.rotterdam].
Proof. vm_compute. discriminate. Qed.

(** ** The calendar *)

Lemma days_before_month_bounds (y m : Z) :
  1 <= m <= 12 →
  0 <= Calendar.days_before_month y m
  ∧ 1 <= Calendar.days_in_month y m
  ∧ Calendar.days_before_month y m + Calendar.days_in_month y m
    <= (if Calendar.is_leap y then 366 else 365).
Proof.
  intros Hm.
  assert (m = 1 ∨ m = 2 ∨ m = 3 ∨ m = 4 ∨ m = 5 ∨ m = 6 ∨ m = 7 ∨ m = 8
          ∨ m = 9 ∨ m = 10 ∨ m = 11 ∨ m = 12) as Hcases by lia.
  unfold Calendar.days_before_month, Calendar.days_in_month.
  generalize (Calendar.is_leap y). intros leap.
  repeat (destruct Hcases as [->|Hcases]); try subst m;
    destruct leap; vm_compute; repeat split; discriminate.
Qed.

Lemma days_before_year_succ (y : Z) :
  Calendar.days_before_year (y + 1) - Calendar.days_before_year y =
  if Calendar.is_leap y then 366 else 365.
Proof.
  unfold Calendar.days_before_year, Calendar.is_leap.
  replace (y + 1 - 1) with y by lia.
  destruct (Z.eqb_spec (y mod 4) 0), (Z.eqb_spec (y mod 100) 0),
    (Z.eqb_spec (y mod 400) 0); simpl;
    Z.div_mod_to_equations; lia.
Qed.

(** The ISO week number of a valid date lies between 1 and 53. *)
Lemma isoweek_range (d : date) :
  Calendar.valid d → 1 <= Calendar.isoweek d <= 53.
Proof.
  intros [Hm Hd].
  destruct (days_before_month_bounds (year d) (month d) Hm) as (Hb0 & _ & Hb1).
  pose proof (days_before_year_succ (year d)) as Hnext.
  pose proof (days_before_year_succ (year d - 1)) as Hprev.
  replace (year d - 1 + 1) with (year d) in Hprev by lia.
  unfold Calendar.isoweek, Calendar.isoweek1monday, Calendar.ordinal,
    Calendar.ymd2ord.
  change (Calendar.days_before_month (year d - 1) 1) with 0.
  change (Calendar.days_before_month (year d) 1) with 0.
  change (Calendar.days_before_month (year d + 1) 1) with 0.
  remember (Calendar.days_before_month (year d) (month d)) as doy eqn:Edoy.
  remember (Calendar.days_in_month (year d) (month d)) as dim eqn:Edim.
  remember (Calendar.days_before_year (year d + 1)) as C eqn:EC.
  remember (Calendar.days_before_year (year d)) as B eqn:EB.
  remember (Calendar.days_before_year (year d - 1)) as A eqn:EA.
  clear Edoy Edim EC EB EA.
  destruct (Calendar.is_leap (year d)), (Calendar.is_leap (year d - 1));
  repeat match goal with
         | |- context [3 <? ?b] => destruct (Z.ltb_spec 3 b)
         end;
  repeat match goal with
         | |- context [?a <? ?b] => destruct (Z.ltb_spec a b)
         | |- context [?a <=? ?b] => destruct (Z.leb_spec a b)
         end; simpl; Z.div_mod_to_equations; lia.
Qed.

(** ** The ISO month and week keys *)

(** The length of the decimal text over a range of numbers, by enumeration. *)
Lemma str_length_range (lo count : Z) (len : nat) :
  forallb (λ n, Nat.eqb (String.length (Py.str (Z.of_nat n))) len)
          (seq (Z.to_nat lo) (Z.to_nat count)) = true →
  ∀ n : Z, 0 <= lo → lo <= n < lo + count → String.length (Py.str n) = len.
Proof.
  intros Hall n Hlo Hn. rewrite forallb_forall in Hall.
  specialize (Hall (Z.to_nat n)). rewrite Z2Nat.id in Hall by lia.
  apply Nat.eqb_eq, Hall, in_seq. lia.
Qed.

Lemma str_length_1 (n : Z) : 0 <= n <= 9 → String.length (Py.str n) = 1%nat.
Proof.
  intros Hn. apply (str_length_range 0 10 1); [vm_compute; reflexivity | lia..].
Qed.

Lemma str_length_2 (n : Z) : 10 <= n <= 99 → String.length (Py.str n) = 2%nat.
Proof.
  intros Hn. apply (str_length_range 10 90 2); [vm_compute; reflexivity | lia..].
Qed.

Lemma str_length_4 (n : Z) : 1000 <= n <= 9999 → String.length (Py.str n) = 4%nat.
Proof.
  intros Hn. apply (str_length_range 1000 9000 4); [vm_compute; reflexivity | lia..].
Qed.

Lemma length_zfill (width : nat) (s : string) :
  String.length (Py.zfill width s) = (width - String.length s + String.length s)%nat.
Proof. unfold Py.zfill. by rewrite string_length_app, length_zeros. Qed.

Lemma all_digits_zfill (width : nat) (s : string) :
  Py.all_digits s = true → Py.all_digits (Py.zfill width s) = true.
Proof. intros Hs. unfold Py.zfill. by rewrite all_digits_app, all_digits_zeros, Hs. Qed.

(** A number from 1 to 99, padded to two characters, is two digits. *)
Lemma zfill_two_digits (n : Z) :
  1 <= n <= 99 →
  String.length (Py.zfill 2 (Py.str n)) = 2%nat
  ∧ Py.all_digits (Py.zfill 2 (Py.str n)) = true.
Proof.
  intros Hn. split; [|apply all_digits_zfill, str_digits; lia].
  rewrite length_zfill. destruct (decide (n <= 9)).
  - by rewrite str_length_1 by lia.
  - by rewrite str_length_2 by lia.
Qed.

(** C4 (as amended).  For every canonical record derived from a valid date
    with a year from 1000 to 9999, [Isomonth_of_statistics] and
    [Isoweek_of_statistics] are 6-character numeric texts: the four digits of
    the calendar year followed by the month, respectively the ISO week, padded
    with zeros to two digits. *)
Theorem clean_merged_data_iso_keys (merged_df : list Merged.row) (r : Canon.row) :
  r ∈ DataManager._clean_merged_data merged_df →
  Calendar.valid (Canon.Date_of_statistics r) →
  1000 <= year (Canon.Date_of_statistics r) <= 9999 →
  Canon.Isomonth_of_statistics r =
    Py.str (year (Canon.Date_of_statistics r))
    +:+ Py.zfill 2 (Py.str (month (Canon.Date_of_statistics r)))
  ∧ Canon.Isoweek_of_statistics r =
    Py.str (year (Canon.Date_of_statistics r))
    +:+ Py.zfill 2 (Py.str (Calendar.isoweek (Canon.Date_of_statistics r)))
  ∧ String.length (Py.str (year (Canon.Date_of_statistics r))) = 4%nat
  ∧ String.length (Py.zfill 2 (Py.str (month (Canon.Date_of_statistics r)))) = 2%nat
  ∧ String.length
      (Py.zfill 2 (Py.str (Calendar.isoweek (Canon.Date_of_statistics r)))) = 2%nat
  ∧ String.length (Canon.Isomonth_of_statistics r) = 6%nat
  ∧ Py.all_digits (Canon.Isomonth_of_statistics r) = true
  ∧ String.length (Canon.Isoweek_of_statistics r) = 6%nat
  ∧ Py.all_digits (Canon.Isoweek_of_statistics r) = true.
Proof.
  unfold DataManager._clean_merged_data.
  intros (m & -> & _)%list_elem_of_fmap. simpl.
  set (d := Merged.Date_of_statistics m). intros Hvalid Hyear.
  pose proof (isoweek_range d Hvalid) as Hweek.
  destruct Hvalid as [Hmonth _].
  destruct (zfill_two_digits (month d)) as [Hml Hmd]; [lia|].
  destruct (zfill_two_digits (Calendar.isoweek d)) as [Hwl Hwd]; [lia|].
  pose proof (str_length_4 (year d) Hyear) as Hyl.
  pose proof (str_digits (year d) ltac:(lia)) as Hyd.
  rewrite !string_length_app, !all_digits_app, Hml, Hmd, Hwl, Hwd, Hyl, Hyd.
  repeat split.
Qed.

Lemma clean_merged_data_iso_keys_witness :
  Canon.Isomonth_of_statistics Sample.utrecht_a =
    Py.str (year (Canon.Date_of_statistics Sample.utrecht_a))
    +:+ Py.zfill 2 (Py.str (month (Canon.Date_of_statistics Sample.utrecht_a)))
  ∧ Canon.Isoweek_of_statistics Sample.utrecht_a =
    Py.str (year (Canon.Date_of_statistics Sample.utrecht_a))
    +:+ Py.zfill 2
          (Py.str (Calendar.isoweek (Canon.Date_of_statistics Sample.utrecht_a)))
  ∧ String.length (Py.str (year (Canon.Date_of_statistics Sample.utrecht_a))) = 4%nat
  ∧ String.length
      (Py.zfill 2 (Py.str (month (Canon.Date_of_statistics Sample.utrecht_a)))) = 2%nat
  ∧ String.length
      (Py.zfill 2
         (Py.str (Calendar.isoweek (Canon.Date_of_statistics Sample.utrecht_a))))
    = 2%nat
  ∧ String.length (Canon.Isomonth_of_statistics Sample.utrecht_a) = 6%nat
  ∧ Py.all_digits (Canon.Isomonth_of_statistics Sample.utrecht_a) = true
  ∧ String.length (Canon.Isoweek_of_statistics Sample.utrecht_a) = 6%nat
  ∧ Py.all_digits (Canon.Isoweek_of_statistics Sample.utrecht_a) = true.
Proof.
  apply (clean_merged_data_iso_keys
           [Merged.Row
              {| Case.Version := 7;
                 Case.Date_of_report := "2023-03-31 10:00:00";
                 Case.Date_of_publication := Date 2022 1 5;
                 Case.Municipality_code := None;
                 Case.Municipality_name := Some "Utrecht";
                 Case.Province := Some "Utrecht";
                 Case.Security_region_code := Some "VR00";
                 Case.Security_region_name := None;
                 Case.Municipal_health_service := None;
                 Case.ROAZ_region := None;
                 Case.Total_reported := 40;
                 Case.Deceased := 1 |} (Some 2)]
           Sample.utrecht_a).
  - apply list_elem_of_here.
  - vm_compute. repeat split; discriminate.
  - vm_compute. split; discriminate.
Defined.

(** The keys of the sample record of 5 January 2022. *)
Example iso_keys_2022_01_05 :
  Canon.Isomonth_of_statistics Sample.utrecht_a = "202201"
  ∧ Canon.Isoweek_of_statistics Sample.utrecht_a = "202201".
Proof. split; reflexivity. Qed.

(** C4, the claim as stated, fails for a year below 1000: the year is written
    without leading zeros, so the keys of 1 January 999, a valid date in the
    range 0001 to 9999, have five characters. *)
Lemma clean_merged_data_iso_keys_counterexample :
  Calendar.valid (Merged.Date_of_statistics Sample.merged_year_999)
  ∧ 1 <= year (Merged.Date_of_statistics Sample.merged_year_999) <= 9999
  ∧ Canon.Isomonth_of_statistics
      (DataManager.clean_merged_row Sample.merged_year_999) = "99901"
  ∧ String.length
      (Canon.Isomonth_of_statistics
         (DataManager.clean_merged_row Sample.merged_year_999)) ≠ 6%nat
  ∧ String.length
      (Canon.Isoweek_of_statistics
         (DataManager.clean_merged_row Sample.merged_year_999)) ≠ 6%nat.
Proof.
  split; [|split; [|split; [|split]]].
  - vm_compute. repeat split; discriminate.
  - vm_compute. split; discriminate.
  - reflexivity.
  - vm_compute. discriminate.
  - vm_compute. discriminate.
Qed.

(** ** The suppressed deceased count *)





(** The repair on a table with a suppressed count outside the old
    municipalities. *)
Example clean_case_data_rotterdam :
  DataManager._clean_case_data
    [Sample.case_row "Brielle" "GM0501" (Date 2022 1 5) 5 2;
     Sample.case_row "Rotterdam" "GM0599" (Date 2022 1 5) 90 9999]
  = [Sample.case_row "Rotterdam" "GM0599" (Date 2022 1 5) 90 0;
     Sample.case_row "Voorne aan zee" "GM1992" (Date 2022 1 5) 5 2].
Proof. vm_compute. reflexivity. Qed.


(** ** Sorting *)

Lemma take_nil {A : Type} (l : list A) : DataManager.take [] l = [].
Proof. reflexivity. Qed.

Lemma take_cons {A : Type} (i : nat) (idx : list nat) (l : list A) :
  DataManager.take (i :: idx) l =
  match l !! i with
  | Some x => x :: DataManager.take idx l
  | None => DataManager.take idx l
  end.
Proof. reflexivity. Qed.

Lemma take_seq_app {A : Type} (l1 l2 : list A) :
  DataManager.take (seq (List.length l1) (List.length l2)) (l1 ++ l2) = l2.
Proof.
  revert l1. induction l2 as [|x l2 IH]; intros l1; [reflexivity|].
  simpl seq. rewrite take_cons, list_lookup_middle by done. f_equal.
  specialize (IH (l1 ++ [x])).
  rewrite length_app, <- app_assoc in IH. simpl in IH.
  by rewrite Nat.add_1_r in IH.
Qed.

Lemma take_seq {A : Type} (l : list A) :
  DataManager.take (seq 0 (List.length l)) l = l.
Proof. apply (take_seq_app [] l). Qed.

Lemma take_Permutation {A : Type} (idx : list nat) (l : list A) :
  idx ≡ₚ seq 0 (List.length l) → DataManager.take idx l ≡ₚ l.
Proof.
  intros Hidx. unfold DataManager.take. rewrite Hidx.
  fold (DataManager.take (seq 0 (List.length l)) l). by rewrite take_seq.
Qed.

Lemma take_reverse {A : Type} (idx : list nat) (l : list A) :
  DataManager.take (reverse idx) l = reverse (DataManager.take idx l).
Proof.
  induction idx as [|i idx IH]; [reflexivity|].
  rewrite reverse_cons, take_cons. unfold DataManager.take at 1.
  rewrite omap_app. fold (DataManager.take (reverse idx) l). rewrite IH. simpl.
  destruct (l !! i); simpl.
  - by rewrite reverse_cons.
  - by rewrite app_nil_r.
Qed.

Lemma take_fmap {A B : Type} (f : A → B) (idx : list nat) (l : list A) :
  DataManager.take idx (f <$> l) = f <$> DataManager.take idx l.
Proof.
  induction idx as [|i idx IH]; [reflexivity|].
  rewrite !take_cons, list_lookup_fmap, IH. by destruct (l !! i).
Qed.

(** Taking through a list of valid positions composes. *)
Lemma take_take {A : Type} (a b : list nat) (l : list A) :
  Forall (λ j, (j < List.length l)%nat) b →
  DataManager.take (DataManager.take a b) l =
  DataManager.take a (DataManager.take b l).
Proof.
  intros Hb.
  assert (∀ i, DataManager.take b l !! i = b !! i ≫= (l !!.)) as Hlookup.
  { induction Hb as [|j b Hj Hb IH]; intros i; [by rewrite !lookup_nil|].
    rewrite take_cons. destruct (lookup_lt_is_Some_2 l j Hj) as [x Hx].
    rewrite Hx. destruct i as [|i]; simpl; [done | apply IH]. }
  induction a as [|i a IH]; [reflexivity|].
  rewrite !take_cons, Hlookup. destruct (b !! i) as [j|]; [|exact IH].
  change (Some j ≫= (l !!.)) with (l !! j). rewrite take_cons, IH. reflexivity.
Qed.

Lemma take_Forall2 {A B : Type} (P : A → B → Prop) (idx : list nat)
    (l : list A) (k : list B) :
  Forall2 P l k → Forall2 P (DataManager.take idx l) (DataManager.take idx k).
Proof.
  intros Hlk. induction idx as [|i idx IH]; [constructor|].
  rewrite !take_cons.
  destruct (l !! i) as [x|] eqn:Hx.
  - destruct (Forall2_lookup_l P l k i x Hlk Hx) as (y & -> & Hxy).
    by constructor.
  - pose proof (Forall2_length _ _ _ Hlk) as Hlen.
    apply lookup_ge_None in Hx. rewrite Hlen in Hx.
    apply lookup_ge_None in Hx. by rewrite Hx.
Qed.

(** Two arrangements of rows with distinct values in a column are equal when
    the column reads the same in both. *)
Lemma Permutation_fmap_inj {A B : Type} (f : A → B) (l1 l2 : list A) :
  l1 ≡ₚ l2 → f <$> l1 = f <$> l2 → NoDup (f <$> l1) → l1 = l2.
Proof.
  revert l2. induction l1 as [|x l1 IH]; intros l2 Hperm Hf Hnd.
  - by apply Permutation_nil_l in Hperm.
  - destruct l2 as [|y l2]; [by apply Permutation_nil_r in Hperm|].
    rewrite !fmap_cons in Hf. injection Hf as Hxy Hf.
    rewrite fmap_cons in Hnd. apply NoDup_cons in Hnd as [Hx Hnd].
    change (f <$> l1 = f <$> l2) in Hf.
    assert (x = y) as <-.
    { assert (x ∈ y :: l2) as Hin by (rewrite <- Hperm; by left).
      apply elem_of_cons in Hin as [?|Hin]; [done|].
      exfalso. apply Hx. rewrite Hf. by apply list_elem_of_fmap_2. }
    f_equal. apply IH; [by apply Permutation_cons_inv in Hperm | done..].
Qed.

Section sort_facts.
Variable argsort : list Z → list nat.
Hypothesis argsort_ok : argsort_contract argsort.

(** A column in ascending order is left as it is. *)
Lemma take_argsort_sorted (items : list Z) :
  Sorted Z.le items → DataManager.take (argsort items) items = items.
Proof.
  intros Hsorted. destruct (argsort_ok items) as [Hperm Hout].
  apply (Sorted_unique Z.le); [done..|]. by apply take_Permutation.
Qed.

Lemma nargsort_Permutation (items : list Z) (ascending : bool) :
  DataManager.nargsort argsort items ascending ≡ₚ seq 0 (List.length items).
Proof.
  unfold DataManager.nargsort. destruct ascending.
  - apply argsort_ok.
  - rewrite reverse_Permutation.
    etrans; [apply take_Permutation | apply reverse_Permutation].
    destruct (argsort_ok (reverse items)) as [Hperm _].
    rewrite length_reverse in Hperm. by rewrite length_reverse, length_seq.
Qed.

(** The column after a descending sort: the reversed column, sorted
    ascending, and reversed again. *)
Lemma take_nargsort_descending (items : list Z) :
  DataManager.take (DataManager.nargsort argsort items false) items =
  reverse (DataManager.take (argsort (reverse items)) (reverse items)).
Proof.
  unfold DataManager.nargsort. rewrite take_reverse. f_equal.
  rewrite take_take.
  - by rewrite take_reverse, take_seq.
  - apply Forall_forall. intros j Hj. rewrite elem_of_reverse in Hj.
    apply elem_of_seq in Hj. lia.
Qed.

(** Sorting a sorted column again leaves the column as it is. *)
Lemma sorted_column_fixed (items : list Z) (ascending : bool) :
  DataManager.take
    (DataManager.nargsort argsort
       (DataManager.take (DataManager.nargsort argsort items ascending) items)
       ascending)
    (DataManager.take (DataManager.nargsort argsort items ascending) items)
  = DataManager.take (DataManager.nargsort argsort items ascending) items.
Proof.
  destruct ascending.
  - apply take_argsort_sorted. apply argsort_ok.
  - rewrite (take_nargsort_descending items).
    rewrite take_nargsort_descending, reverse_involutive.
    f_equal. apply take_argsort_sorted. apply argsort_ok.
Qed.

Lemma sort_values_inr (df : list agg_row) (by_ : metric) (ascending : bool)
    (items : list Z) :
  mapM (agg_value by_) df = Some items →
  DataManager.sort_values argsort df by_ ascending =
    inr (DataManager.take (DataManager.nargsort argsort items ascending) df)
  ∧ mapM (agg_value by_)
      (DataManager.take (DataManager.nargsort argsort items ascending) df)
    = Some (DataManager.take (DataManager.nargsort argsort items ascending) items)
  ∧ DataManager.take (DataManager.nargsort argsort items ascending) df ≡ₚ df.
Proof.
  intros Hitems. unfold DataManager.sort_values. rewrite Hitems.
  split; [done|]. split.
  - apply mapM_Some. apply take_Forall2. by apply mapM_Some.
  - apply take_Permutation. rewrite nargsort_Permutation.
    apply length_mapM in Hitems. by rewrite Hitems.
Qed.

(** Sorting a table that was sorted by the same metric and order succeeds,
    gives a rearrangement of the same rows, and leaves the metric column as
    it is; when no two rows have the same value of the metric, the table
    itself is left as it is. *)
Lemma sort_data_again (df df1 : list agg_row) (sort_by : metric)
    (sort_order : string) :
  DataManager.sort_data argsort df sort_by sort_order = inr df1 →
  ∃ df2,
    DataManager.sort_data argsort df1 sort_by sort_order = inr df2
    ∧ df2 ≡ₚ df1
    ∧ agg_value sort_by <$> df2 = agg_value sort_by <$> df1
    ∧ (NoDup (agg_value sort_by <$> df) → df2 = df1).
Proof.
  unfold DataManager.sort_data.
  set (ascending := if decide (sort_order = "Ascending") then true else false).
  assert (∀ t, (if decide (sort_order = "Ascending")
                then DataManager.sort_values argsort t sort_by true
                else DataManager.sort_values argsort t sort_by false)
               = DataManager.sort_values argsort t sort_by ascending) as Hform.
  { intros t. subst ascending. by destruct (decide _). }
  rewrite !Hform. intros Hfirst.
  destruct (mapM (agg_value sort_by) df) as [items|] eqn:Hitems;
    [|unfold DataManager.sort_values in Hfirst; by rewrite Hitems in Hfirst].
  destruct (sort_values_inr df sort_by ascending items Hitems)
    as (Hrun & Hitems1 & Hperm1).
  rewrite Hrun in Hfirst. injection Hfirst as <-.
  destruct (sort_values_inr _ sort_by ascending _ Hitems1)
    as (Hrun2 & Hitems2 & Hperm2).
  eexists. split; [exact Hrun2|]. split; [exact Hperm2|].
  rewrite sorted_column_fixed in Hitems2.
  assert (∀ t its, mapM (agg_value sort_by) t = Some its →
                   agg_value sort_by <$> t = Some <$> its) as Hcol.
  { intros t its Hm. apply mapM_Some in Hm.
    induction Hm as [|a v t its Hav _ IH]; [reflexivity|].
    rewrite !fmap_cons, Hav. f_equal. exact IH. }
  split.
  - by rewrite (Hcol _ _ Hitems2), (Hcol _ _ Hitems1).
  - intros Hnd. apply (Permutation_fmap_inj (agg_value sort_by)); [done| |].
    + by rewrite (Hcol _ _ Hitems2), (Hcol _ _ Hitems1).
    + by rewrite Hperm2, Hperm1.
Qed.
End sort_facts.


(** A merge sort of the values paired with their positions meets the
    documented behaviour, whatever it does with equal values. *)
Lemma argsort_by_contract (R : relation (Z * nat)) `{!RelDecision R} :
  Total R → (∀ a b, R a b → a.1 <= b.1) → argsort_contract (argsort_by R).
Proof.
  intros Htotal Hle items. unfold argsort_by.
  set (pairs := zip items (seq 0 (List.length items))).
  assert (Forall (λ p : Z * nat, items !! p.2 = Some p.1) (merge_sort R pairs))
    as Hpairs.
  { apply Forall_forall. intros p Hp. rewrite merge_sort_Permutation in Hp.
    apply elem_of_lookup_zip_with in Hp as (i & v & j & -> & Hv & Hj).
    apply lookup_seq in Hj as [-> _]. done. }
  split.
  - change (map snd (merge_sort R pairs)) with ((merge_sort R pairs).*2).
    rewrite merge_sort_Permutation. subst pairs.
    by rewrite snd_zip by (by rewrite length_seq).
  - assert (DataManager.take (map snd (merge_sort R pairs)) items
            = (merge_sort R pairs).*1) as ->.
    { induction Hpairs as [|p ps Hp _ IH]; [reflexivity|].
      simpl map. rewrite take_cons, Hp, IH. reflexivity. }
    apply Sorted_fmap with (R1 := R); [exact Hle|].
    by apply Sorted_merge_sort.
Qed.

Lemma stable_argsort_contract : argsort_contract stable_argsort.
Proof.
  apply argsort_by_contract.
  - intros a b. unfold value_le. lia.
  - intros a b. unfold value_le. lia.
Qed.

Lemma reversing_argsort_contract : argsort_contract reversing_argsort.
Proof.
  apply argsort_by_contract.
  - intros a b. unfold value_le_rev. lia.
  - intros a b. unfold value_le_rev. lia.
Qed.

(** With the stable sort, sorting the sorted sample again changes nothing. *)
Example sort_data_stable_twice :
  DataManager.sort_data stable_argsort Sample.tied_df Total_reported "Ascending"
  = inr [AggRow (CStr "Zeeland") [(Total_reported, 3)];
         AggRow (CStr "Drenthe") [(Total_reported, 5)];
         AggRow (CStr "Utrecht") [(Total_reported, 5)]]
  ∧ DataManager.sort_data stable_argsort
      [AggRow (CStr "Zeeland") [(Total_reported, 3)];
       AggRow (CStr "Drenthe") [(Total_reported, 5)];
       AggRow (CStr "Utrecht") [(Total_reported, 5)]] Total_reported "Ascending"
    = inr [AggRow (CStr "Zeeland") [(Total_reported, 3)];
           AggRow (CStr "Drenthe") [(Total_reported, 5)];
           AggRow (CStr "Utrecht") [(Total_reported, 5)]].
Proof. split; vm_compute; reflexivity. Qed.

(** With a sort that also meets the documented behaviour but turns equal
    values around, sorting the sorted sample again swaps the two rows with
    the same total: what a second sort does to ties is decided by the
    algorithm behind [argsort], not by the program. *)
Example sort_data_reversing_twice :
  DataManager.sort_data reversing_argsort Sample.tied_df Total_reported "Ascending"
  = inr [AggRow (CStr "Zeeland") [(Total_reported, 3)];
         AggRow (CStr "Utrecht") [(Total_reported, 5)];
         AggRow (CStr "Drenthe") [(Total_reported, 5)]]
  ∧ DataManager.sort_data reversing_argsort
      [AggRow (CStr "Zeeland") [(Total_reported, 3)];
       AggRow (CStr "Utrecht") [(Total_reported, 5)];
       AggRow (CStr "Drenthe") [(Total_reported, 5)]] Total_reported "Ascending"
    = inr [AggRow (CStr "Zeeland") [(Total_reported, 3)];
           AggRow (CStr "Drenthe") [(Total_reported, 5)];
           AggRow (CStr "Utrecht") [(Total_reported, 5)]].
Proof. split; vm_compute; reflexivity. Qed.

(** * Further properties of the pipeline *)

(** ** The repair of the case table, continued *)

Lemma reset_outlier_fixed (r : Case.row) :
  Case.Deceased r ≠ 9999 → DataManager.reset_outlier r = r.
Proof.
  intros Hne. destruct r as [v rp d mc mn p sc sn mhs roaz tr dec].
  unfold DataManager.reset_outlier. simpl in *.
  destruct (Z.eqb_spec dec 9999); [done | reflexivity].
Qed.

Lemma reset_outlier_deceased (r : Case.row) :
  Case.Deceased (DataManager.reset_outlier r) ≠ 9999.
Proof.
  simpl. destruct (Z.eqb_spec (Case.Deceased r) 9999); [discriminate | done].
Qed.

Lemma is_old_reset_outlier (r : Case.row) :
  DataManager.is_old (DataManager.reset_outlier r) = DataManager.is_old r.
Proof. reflexivity. Qed.

Lemma is_old_grouped_row (g : DataManager.merge_key * list Case.row) :
  DataManager.is_old (DataManager.grouped_row g) = false.
Proof.
  destruct g as [[[[[[[[v rp] d] p] sc] sn] mhs] roaz] rows]. reflexivity.
Qed.

Lemma filter_all {A : Type} (f : A → bool) (l : list A) :
  (∀ x, x ∈ l → f x = true) → List.filter f l = l.
Proof.
  induction l as [|x l IH]; intros Hall; [reflexivity|].
  simpl. rewrite Hall by (by left). f_equal. apply IH. intros y ?. apply Hall. by right.
Qed.

Lemma filter_none {A : Type} (f : A → bool) (l : list A) :
  (∀ x, x ∈ l → f x = false) → List.filter f l = [].
Proof.
  induction l as [|x l IH]; intros Hall; [reflexivity|].
  simpl. rewrite Hall by (by left). apply IH. intros y ?. apply Hall. by right.
Qed.

Lemma clean_case_data_rows (case_df : list Case.row) (o : Case.row) :
  o ∈ DataManager._clean_case_data case_df →
  DataManager.is_old o = false ∧ Case.Deceased o ≠ 9999.
Proof.
  unfold DataManager._clean_case_data.
  intros (r & -> & Hr)%list_elem_of_fmap. split; [|apply reset_outlier_deceased].
  rewrite is_old_reset_outlier. apply elem_of_app in Hr as [Hr|Hr].
  - apply list_elem_of_In, filter_In in Hr as [_ Hr]. by destruct (DataManager.is_old r).
  - apply list_elem_of_fmap in Hr as (g & -> & _). apply is_old_grouped_row.
Qed.

(** X1.  No row of the repaired table belongs to one of the three old
    municipalities, and no row has the suppressed value 9999 as its deceased
    count. *)
Theorem clean_case_data_output_clean (case_df : list Case.row) (o : Case.row) :
  o ∈ DataManager._clean_case_data case_df →
  DataManager.is_old o = false ∧ Case.Deceased o ≠ 9999.
Proof. apply clean_case_data_rows. Qed.

Lemma clean_case_data_output_clean_witness :
  DataManager.is_old (Sample.case_row "Voorne aan zee" "GM1992" (Date 2022 1 5) 8 10000)
  = false
  ∧ Case.Deceased (Sample.case_row "Voorne aan zee" "GM1992" (Date 2022 1 5) 8 10000)
    ≠ 9999.
Proof.
  apply (clean_case_data_output_clean
           [Sample.case_row "Brielle" "GM0501" (Date 2022 1 5) 5 9999;
            Sample.case_row "Hellevoetsluis" "GM0530" (Date 2022 1 5) 3 1]).
  vm_compute. apply list_elem_of_here.
Defined.

(** X2.  On a table without rows of the three old municipalities the repair
    only resets the suppressed counts: the rows and their order are kept.
    When no count is 9999 either, the table is returned as it is. *)
Theorem clean_case_data_without_old (case_df : list Case.row) :
  (∀ r, r ∈ case_df → DataManager.is_old r = false) →
  DataManager._clean_case_data case_df = map DataManager.reset_outlier case_df
  ∧ ((∀ r, r ∈ case_df → Case.Deceased r ≠ 9999) →
     DataManager._clean_case_data case_df = case_df).
Proof.
  intros Hold.
  assert (DataManager._clean_case_data case_df
          = map DataManager.reset_outlier case_df) as Hmap.
  { unfold DataManager._clean_case_data.
    rewrite (filter_none DataManager.is_old) by done.
    rewrite filter_all by (intros r Hr; by rewrite Hold).
    by rewrite app_nil_r. }
  split; [exact Hmap|]. intros Hdec. rewrite Hmap.
  clear Hmap Hold. induction case_df as [|r l IH]; [reflexivity|].
  simpl. rewrite reset_outlier_fixed by (apply Hdec; by left).
  f_equal. apply IH. intros r' ?. apply Hdec. by right.
Qed.

Lemma clean_case_data_without_old_witness :
  DataManager._clean_case_data [Sample.rotterdam; Sample.schiedam]
  = [Sample.rotterdam; Sample.schiedam].
Proof.
  apply (clean_case_data_without_old [Sample.rotterdam; Sample.schiedam]).
  - intros r Hr. apply list_elem_of_In in Hr. simpl in Hr.
    destruct Hr as [<-|[<-|[]]]; reflexivity.
  - intros r Hr. apply list_elem_of_In in Hr. simpl in Hr.
    destruct Hr as [<-|[<-|[]]]; discriminate.
Defined.

(** X3.  The repair is idempotent: repairing a repaired table changes
    nothing. *)
Theorem clean_case_data_idempotent (case_df : list Case.row) :
  DataManager._clean_case_data (DataManager._clean_case_data case_df)
  = DataManager._clean_case_data case_df.
Proof.
  pose proof (clean_case_data_rows case_df) as Hclean.
  generalize dependent (DataManager._clean_case_data case_df). intros out Hclean.
  unfold DataManager._clean_case_data.
  rewrite (filter_none DataManager.is_old) by (intros o Ho; by apply Hclean).
  rewrite filter_all by (intros o Ho; by destruct (Hclean o Ho) as [-> _]).
  rewrite app_nil_r.
  induction out as [|o l IH]; [reflexivity|].
  simpl. rewrite reset_outlier_fixed by (apply Hclean; by left).
  f_equal. apply IH. intros o' ?. apply Hclean. by right.
Qed.

Lemma sum_filter_split {A : Type} (h : A → Z) (f : A → bool) (l : list A) :
  Py.sum (map h l) =
  Py.sum (map h (List.filter f l)) + Py.sum (map h (List.filter (λ x, negb (f x)) l)).
Proof.
  induction l as [|x l IH]; [reflexivity|].
  simpl. destruct (f x); simpl; lia.
Qed.

Lemma sum_key_split {A K : Type} (h : A → Z) (key : A → option K) (l : list A) :
  Py.sum (map h l) =
  Py.sum (map h (filter (λ x, is_Some (key x)) l))
  + Py.sum (map h (filter (λ x, key x = None) l)).
Proof.
  induction l as [|x l IH]; [reflexivity|].
  rewrite !filter_cons. simpl. destruct (key x) as [k|] eqn:Hk.
  - rewrite decide_True by eauto. rewrite decide_False by done. simpl. lia.
  - rewrite decide_False by (by intros [? ?]). rewrite decide_True by done.
    simpl. lia.
Qed.

Lemma total_reported_grouped_row (g : DataManager.merge_key * list Case.row) :
  Case.Total_reported (DataManager.grouped_row g)
  = Py.sum (map Case.Total_reported g.2).
Proof.
  destruct g as [[[[[[[[v rp] d] p] sc] sn] mhs] roaz] rows]. reflexivity.
Qed.

Lemma deceased_grouped_row (g : DataManager.merge_key * list Case.row) :
  Case.Deceased (DataManager.grouped_row g) = Py.sum (map Case.Deceased g.2).
Proof.
  destruct g as [[[[[[[[v rp] d] p] sc] sn] mhs] roaz] rows]. reflexivity.
Qed.

(** X4.  The repair keeps the total of [Total_reported], except for what the
    rows of the old municipalities with an empty grouping column report:
    those rows are in no group and are lost. *)
Theorem clean_case_data_total_reported (case_df : list Case.row) :
  Py.sum (map Case.Total_reported (DataManager._clean_case_data case_df)) =
  Py.sum (map Case.Total_reported case_df)
  - Py.sum (map Case.Total_reported
              (filter (λ r, DataManager.merge_key_of r = None)
                 (List.filter DataManager.is_old case_df))).
Proof.
  unfold DataManager._clean_case_data.
  rewrite map_map. simpl. rewrite map_app, sum_app.
  rewrite (sum_filter_split Case.Total_reported DataManager.is_old case_df).
  rewrite (sum_key_split Case.Total_reported DataManager.merge_key_of
             (List.filter DataManager.is_old case_df)).
  set (old := List.filter DataManager.is_old case_df).
  change (λ x : Case.row, Case.Total_reported x) with Case.Total_reported.
  assert (Py.sum (map Case.Total_reported
            (map DataManager.grouped_row
               (groupby DataManager.merge_key_of DataManager.merge_key_leb old)))
          = Py.sum (map Case.Total_reported
              (filter (λ r, is_Some (DataManager.merge_key_of r)) old))) as ->; [|lia].
  rewrite <- (sum_groups DataManager.merge_key_of Case.Total_reported
                (group_keys DataManager.merge_key_of DataManager.merge_key_leb old) old).
  - unfold groupby. rewrite !map_map. f_equal. apply map_ext. intros k.
    apply total_reported_grouped_row.
  - apply group_keys_NoDup.
  - intros r k Hr Hk. apply elem_of_group_keys. eauto.
Qed.

Lemma merge_key_of_Some (r : Case.row) (k : DataManager.merge_key) :
  DataManager.merge_key_of r = Some k →
  k = (Case.Version r, Case.Date_of_report r, Case.Date_of_publication r,
       default "" (Case.Province r), default "" (Case.Security_region_code r),
       default "" (Case.Security_region_name r),
       default "" (Case.Municipal_health_service r), default "" (Case.ROAZ_region r))
  ∧ is_Some (Case.Province r) ∧ is_Some (Case.Security_region_code r)
  ∧ is_Some (Case.Security_region_name r)
  ∧ is_Some (Case.Municipal_health_service r) ∧ is_Some (Case.ROAZ_region r).
Proof.
  unfold DataManager.merge_key_of.
  destruct (Case.Province r), (Case.Security_region_code r),
    (Case.Security_region_name r), (Case.Municipal_health_service r),
    (Case.ROAZ_region r); simpl; intros [= <-]; eauto 10.
Qed.

(** X5.  Every row of an old municipality whose grouping columns are all
    filled is represented in the repaired table by a row of Voorne aan zee
    (GM1992) with the same grouping columns; its [Total_reported] is the sum
    over the rows of the old municipalities with these grouping columns, and
    its [Deceased] is that sum of [Deceased], replaced by 0 when it equals
    9999. *)
Theorem clean_case_data_merged_row (case_df : list Case.row) (r : Case.row)
    (k : DataManager.merge_key) :
  r ∈ case_df →
  DataManager.is_old r = true →
  DataManager.merge_key_of r = Some k →
  ∃ o, o ∈ DataManager._clean_case_data case_df
       ∧ corresponds r o
       ∧ Case.Total_reported o =
         Py.sum (map Case.Total_reported
                   (filter (λ r', DataManager.merge_key_of r' = Some k)
                      (List.filter DataManager.is_old case_df)))
       ∧ Case.Deceased o =
         (let total := Py.sum (map Case.Deceased
                                 (filter (λ r', DataManager.merge_key_of r' = Some k)
                                    (List.filter DataManager.is_old case_df))) in
          if total =? 9999 then 0 else total).
Proof.
  intros Hr Hold Hk.
  set (old := List.filter DataManager.is_old case_df).
  set (g := (k, group_rows DataManager.merge_key_of old k)).
  exists (DataManager.reset_outlier (DataManager.grouped_row g)).
  split; [|split; [|split]].
  - unfold DataManager._clean_case_data. apply list_elem_of_fmap_2, elem_of_app.
    right. apply list_elem_of_fmap_2. apply elem_of_groupby. split; [|done].
    apply elem_of_group_keys. exists r. split; [|done].
    apply list_elem_of_In, filter_In. split; [by apply list_elem_of_In | done].
  - destruct (merge_key_of_Some r k Hk) as (-> & Hp & Hsc & Hsn & Hm & Hz).
    unfold corresponds. rewrite Hold. subst g. simpl.
    destruct Hp as [? ->], Hsc as [? ->], Hsn as [? ->], Hm as [? ->], Hz as [? ->].
    simpl. repeat split.
  - simpl. apply total_reported_grouped_row.
  - simpl. rewrite deceased_grouped_row. reflexivity.
Qed.

Lemma clean_case_data_merged_row_witness :
  ∃ o, o ∈ DataManager._clean_case_data
             [Sample.case_row "Brielle" "GM0501" (Date 2022 1 5) 5 2;
              Sample.case_row "Hellevoetsluis" "GM0530" (Date 2022 1 5) 3 1]
       ∧ corresponds (Sample.case_row "Brielle" "GM0501" (Date 2022 1 5) 5 2) o
       ∧ Case.Total_reported o = 8
       ∧ Case.Deceased o = 3.
Proof.
  destruct (clean_case_data_merged_row
              [Sample.case_row "Brielle" "GM0501" (Date 2022 1 5) 5 2;
               Sample.case_row "Hellevoetsluis" "GM0530" (Date 2022 1 5) 3 1]
              (Sample.case_row "Brielle" "GM0501" (Date 2022 1 5) 5 2)
              (7, "2023-03-31 10:00:00", Date 2022 1 5, "Zuid-Holland", "VR17",
               "Rotterdam-Rijnmond", "GGD Rotterdam-Rijnmond",
               "Traumacentrum ZuidWest-Nederland"))
    as (o & Hin & Hcor & Htotal & Hdeceased).
  - apply list_elem_of_here.
  - reflexivity.
  - reflexivity.
  - exists o. split; [exact Hin|]. split; [exact Hcor|].
    split; [rewrite Htotal | rewrite Hdeceased]; reflexivity.
Defined.

(** ** The merge, continued *)

Lemma length_join_row (hospital_df : list Hosp.row) (c : Case.row) :
  List.length (DataManager.join_row hospital_df c)
  = Nat.max 1 (List.length (DataManager.matches c hospital_df)).
Proof.
  unfold DataManager.join_row.
  destruct (DataManager.matches c hospital_df) as [|h hs]; [reflexivity|].
  rewrite length_map. simpl. lia.
Qed.

(** X6.  The left join never loses a case row: every case row is the case
    part of a merged row, and the merged table has, for each case row, as
    many rows as there are hospitalization rows with its key, and one when
    there is none. *)
Theorem merge_data_length (case_df : list Case.row) (hospital_df : list Hosp.row) :
  List.length (DataManager._merge_data case_df hospital_df)
  = sum_list_with
      (λ c, Nat.max 1 (List.length (DataManager.matches c hospital_df))) case_df
  ∧ (List.length case_df ≤ List.length (DataManager._merge_data case_df hospital_df))%nat
  ∧ ∀ c, c ∈ case_df →
      ∃ m, m ∈ DataManager._merge_data case_df hospital_df
           ∧ Merged.case_columns m = c.
Proof.
  assert (List.length (DataManager._merge_data case_df hospital_df)
          = sum_list_with
              (λ c, Nat.max 1 (List.length (DataManager.matches c hospital_df)))
              case_df) as Hlen.
  { unfold DataManager._merge_data. induction case_df as [|c cs IH]; [reflexivity|].
    simpl. rewrite length_app, IH, length_join_row. reflexivity. }
  split; [exact Hlen|]. split.
  - rewrite Hlen. clear Hlen. induction case_df as [|c cs IH]; simpl; lia.
  - intros c Hc.
    destruct (DataManager.join_row hospital_df c) as [|m ms] eqn:Hjoin.
    + pose proof (length_join_row hospital_df c) as Hl. rewrite Hjoin in Hl.
      simpl in Hl. lia.
    + exists m. split.
      * apply elem_of_merge_data. exists c. split; [done|]. rewrite Hjoin. by left.
      * apply (join_row_case_columns hospital_df). rewrite Hjoin. by left.
Qed.

(** ** The field normalizer, continued *)

Lemma replace_province_not_frisian (c : option string) :
  DataManager.replace_province c ≠ Some "Fryslân".
Proof.
  unfold DataManager.replace_province. destruct c as [s|]; [|done].
  destruct (decide (s = "Fryslân")) as [->|Hne]; [discriminate | congruence].
Qed.

(** X7.  The normalizer keeps the number and the order of the rows; in every
    row it returns the country is Netherlands, neither the province nor the
    security region is spelt Fryslân, the year and the month are those of the
    date, and, when the date is valid, the month lies between 1 and 12 and
    the week between 1 and 53. *)
Theorem clean_merged_data_fields (merged_df : list Merged.row) :
  List.length (DataManager._clean_merged_data merged_df) = List.length merged_df
  ∧ map Canon.Date_of_statistics (DataManager._clean_merged_data merged_df)
    = map Merged.Date_of_statistics merged_df
  ∧ ∀ r, r ∈ DataManager._clean_merged_data merged_df →
      Canon.Country r = "Netherlands"
      ∧ Canon.Province r ≠ Some "Fryslân"
      ∧ Canon.Security_region_name r ≠ Some "Fryslân"
      ∧ Canon.Year_of_statistics r = year (Canon.Date_of_statistics r)
      ∧ Canon.Month_of_statistics r = month (Canon.Date_of_statistics r)
      ∧ Canon.Week_of_statistics r = Calendar.isoweek (Canon.Date_of_statistics r)
      ∧ (Calendar.valid (Canon.Date_of_statistics r) →
         1 <= Canon.Month_of_statistics r <= 12
         ∧ 1 <= Canon.Week_of_statistics r <= 53).
Proof.
  unfold DataManager._clean_merged_data. split; [apply length_map|]. split.
  - rewrite map_map. reflexivity.
  - intros r (m & -> & _)%list_elem_of_fmap. simpl.
    split; [done|]. split; [apply replace_province_not_frisian|].
    split; [apply replace_province_not_frisian|]. repeat (split; [done|]).
    intros Hvalid. split; [apply Hvalid | by apply isoweek_range].
Qed.

Lemma app_eq_suffix (s1 s2 t1 t2 : string) :
  s1 +:+ t1 = s2 +:+ t2 → String.length t1 = String.length t2 →
  s1 = s2 ∧ t1 = t2.
Proof.
  intros Heq Hlen.
  assert (String.length s1 = String.length s2) as Hs.
  { apply (f_equal String.length) in Heq. rewrite !string_length_app in Heq. lia. }
  revert s2 Heq Hs. induction s1 as [|c s1 IH]; intros [|c' s2] Heq Hs;
    simpl in Hs; try discriminate.
  - by split.
  - injection Heq as -> Heq. destruct (IH s2 Heq) as [-> ->]; [lia | done].
Qed.

(** The padded text of a number from 1 to 99 determines the number, by
    enumeration. *)
Lemma zfill_two_inj (a b : Z) :
  1 <= a <= 99 → 1 <= b <= 99 →
  Py.zfill 2 (Py.str a) = Py.zfill 2 (Py.str b) → a = b.
Proof.
  intros Ha Hb Heq.
  assert (forallb (λ x, forallb (λ y,
            implb (String.eqb (Py.zfill 2 (Py.str (Z.of_nat x)))
                              (Py.zfill 2 (Py.str (Z.of_nat y))))
                  (Nat.eqb x y)) (seq 1 99)) (seq 1 99) = true) as Hall
    by (vm_compute; reflexivity).
  rewrite forallb_forall in Hall.
  specialize (Hall (Z.to_nat a)). rewrite forallb_forall in Hall.
  assert (In (Z.to_nat a) (seq 1 99)) as Hina by (apply in_seq; lia).
  assert (In (Z.to_nat b) (seq 1 99)) as Hinb by (apply in_seq; lia).
  specialize (Hall Hina (Z.to_nat b) Hinb).
  rewrite !Z2Nat.id in Hall by lia. rewrite Heq, String.eqb_refl in Hall.
  simpl in Hall. apply Nat.eqb_eq in Hall. lia.
Qed.

(** X8.  The keys tell months and weeks apart: two records of valid dates
    with the same [Isomonth_of_statistics] have the same year and month, and
    two with the same [Isoweek_of_statistics] have the same year and ISO week
    number. *)
Theorem clean_merged_row_keys_inj (m1 m2 : Merged.row) :
  Calendar.valid (Merged.Date_of_statistics m1) →
  Calendar.valid (Merged.Date_of_statistics m2) →
  (Canon.Isomonth_of_statistics (DataManager.clean_merged_row m1)
   = Canon.Isomonth_of_statistics (DataManager.clean_merged_row m2) →
   year (Merged.Date_of_statistics m1) = year (Merged.Date_of_statistics m2)
   ∧ month (Merged.Date_of_statistics m1) = month (Merged.Date_of_statistics m2))
  ∧ (Canon.Isoweek_of_statistics (DataManager.clean_merged_row m1)
     = Canon.Isoweek_of_statistics (DataManager.clean_merged_row m2) →
     year (Merged.Date_of_statistics m1) = year (Merged.Date_of_statistics m2)
     ∧ Calendar.isoweek (Merged.Date_of_statistics m1)
       = Calendar.isoweek (Merged.Date_of_statistics m2)).
Proof.
  intros Hv1 Hv2. simpl.
  pose proof (isoweek_range _ Hv1) as Hw1. pose proof (isoweek_range _ Hv2) as Hw2.
  destruct Hv1 as [Hm1 _], Hv2 as [Hm2 _].
  destruct (zfill_two_digits (month (Merged.Date_of_statistics m1))) as [Hl1 _]; [lia|].
  destruct (zfill_two_digits (month (Merged.Date_of_statistics m2))) as [Hl2 _]; [lia|].
  destruct (zfill_two_digits (Calendar.isoweek (Merged.Date_of_statistics m1)))
    as [Hk1 _]; [lia|].
  destruct (zfill_two_digits (Calendar.isoweek (Merged.Date_of_statistics m2)))
    as [Hk2 _]; [lia|].
  split; intros Heq.
  - apply app_eq_suffix in Heq as [Hy Hrest]; [|by rewrite Hl1, Hl2].
    split; [by apply str_inj | apply zfill_two_inj; [lia | lia | done]].
  - apply app_eq_suffix in Heq as [Hy Hrest]; [|by rewrite Hk1, Hk2].
    split; [by apply str_inj | apply zfill_two_inj; [lia | lia | done]].
Qed.

Lemma clean_merged_row_keys_inj_witness :
  year (Merged.Date_of_statistics (Merged.Row Sample.rotterdam None))
  = year (Merged.Date_of_statistics (Merged.Row Sample.schiedam (Some 1)))
  ∧ month (Merged.Date_of_statistics (Merged.Row Sample.rotterdam None))
    = month (Merged.Date_of_statistics (Merged.Row Sample.schiedam (Some 1))).
Proof.
  apply (clean_merged_row_keys_inj (Merged.Row Sample.rotterdam None)
           (Merged.Row Sample.schiedam (Some 1))).
  - vm_compute. repeat split; discriminate.
  - vm_compute. repeat split; discriminate.
  - reflexivity.
Defined.

(** ** The persisted folder, continued *)



Lemma lookup_year_segments_other (gs : list (Z * list Canon.row))
    (fs : gmap string (list Canon.row)) (path : string) :
  (∀ g, g ∈ gs → path ≠ DataManager.csv_path (Py.str g.1)) →
  foldl (λ acc g, DataManager.to_csv acc (DataManager.csv_path (Py.str g.1)) g.2)
        fs gs !! path = fs !! path.
Proof.
  revert fs. induction gs as [|g gs IH]; intros fs Hgs; [reflexivity|].
  simpl. rewrite IH by (intros g' ?; apply Hgs; by right).
  unfold DataManager.to_csv. apply lookup_insert_ne.
  intros Heq. apply (Hgs g); [by left | done].
Qed.



(** X10.  Saving writes the all-time file and the files of the years in the
    table and nothing else: every other file of the folder, such as the file
    of a year that is no longer in the data, is left as it was. *)
Theorem save_clean_data_other_files (fs : gmap string (list Canon.row))
    (df : list Canon.row) (path : string) :
  path ≠ DataManager.csv_path "alltime" →
  (∀ r, r ∈ df → path ≠ DataManager.csv_path (Py.str (Canon.Year_of_statistics r))) →
  DataManager._save_clean_data fs df !! path = fs !! path.
Proof.
  intros Hall Hyears. unfold DataManager._save_clean_data.
  unfold DataManager.to_csv at 1. rewrite lookup_insert_ne by done.
  apply lookup_year_segments_other. intros g Hg.
  apply elem_of_groupby in Hg as [Hk _].
  apply elem_of_group_keys in Hk as (r & Hr & [= <-]). by apply Hyears.
Qed.

Lemma save_clean_data_other_files_witness :
  DataManager._save_clean_data {[ DataManager.csv_path "2019" := [] ]}
    Sample.canon_df !! DataManager.csv_path "2019"
  = ({[ DataManager.csv_path "2019" := [] ]} : gmap string (list Canon.row))
      !! DataManager.csv_path "2019".
Proof.
  apply (save_clean_data_other_files {[ DataManager.csv_path "2019" := [] ]}
           Sample.canon_df (DataManager.csv_path "2019")).
  - discriminate.
  - intros r Hr. apply list_elem_of_In in Hr. simpl in Hr.
    destruct Hr as [<-|[<-|[<-|[<-|[<-|[]]]]]]; discriminate.
Defined.

Section groups_partition.
Context {R K : Type} `{EqDecision K}.
Variable by_ : R → option K.
Variable leb : K → K → bool.

(** Adding a row to the frame adds it to the group of its key. *)
Lemma concat_group_rows_cons (r : R) (df : list R) (ks : list K) :
  NoDup ks →
  List.concat (map (group_rows by_ (r :: df)) ks)
  ≡ₚ match by_ r with
     | Some k => if decide (k ∈ ks) then [r] else []
     | None => []
     end ++ List.concat (map (group_rows by_ df) ks).
Proof.
  induction 1 as [|k ks Hk Hnd IH].
  - simpl. by destruct (by_ r).
  - simpl. rewrite IH, group_rows_cons.
    destruct (by_ r) as [k0|] eqn:Hr; [|by rewrite decide_False by done].
    destruct (decide (Some k0 = Some k)) as [[= ->]|Hne].
    + rewrite (decide_True (P := k ∈ k :: ks)) by (by left).
      rewrite (decide_False (P := k ∈ ks)) by done. done.
    + destruct (decide (k0 ∈ ks)) as [Hin|Hin].
      * rewrite (decide_True (P := k0 ∈ k :: ks)) by (by right). simpl.
        by rewrite Permutation_middle.
      * rewrite (decide_False (P := k0 ∈ k :: ks)); [done|].
        intros [->|?]%elem_of_cons; [congruence | done].
Qed.

(** The groups hold every row with a key exactly once. *)
Lemma concat_groupby (df : list R) :
  List.concat (map snd (groupby by_ leb df)) ≡ₚ filter (λ r, is_Some (by_ r)) df.
Proof.
  unfold groupby. rewrite map_map. simpl.
  pose proof (group_keys_NoDup by_ leb df) as Hnd.
  assert (∀ r k, r ∈ df → by_ r = Some k → k ∈ group_keys by_ leb df) as Hks
    by (intros r k ? ?; apply elem_of_group_keys; eauto).
  generalize dependent (group_keys by_ leb df). intros ks Hnd.
  induction df as [|r df IH]; intros Hks.
  - clear. induction ks as [|k ks IH]; [reflexivity | exact IH].
  - rewrite concat_group_rows_cons by done.
    rewrite IH by (intros r' k ? ?; apply (Hks r' k); [by right | done]).
    rewrite filter_cons. destruct (by_ r) as [k0|] eqn:Hr.
    + rewrite (decide_True (P := k0 ∈ ks)) by (apply (Hks r k0); [by left | done]).
      rewrite decide_True by eauto. done.
    + rewrite decide_False by (by intros [? ?]). done.
Qed.
End groups_partition.

(** X11.  The yearly files written by a save hold every record of the table
    exactly once: each group of the table by year is the content of the file
    of that year, and the groups together are a rearrangement of the
    table. *)
Theorem save_clean_data_year_files (fs : gmap string (list Canon.row))
    (df : list Canon.row) :
  (∀ g, g ∈ groupby (λ r, Some (Canon.Year_of_statistics r)) Z.leb df →
     DataManager._save_clean_data fs df !! DataManager.csv_path (Py.str g.1)
     = Some g.2)
  ∧ List.concat (map snd (groupby (λ r, Some (Canon.Year_of_statistics r)) Z.leb df))
    ≡ₚ df.
Proof.
  split.
  - intros g Hg. apply elem_of_groupby in Hg as [Hk ->].
    rewrite group_rows_year. apply lookup_save_year.
    apply elem_of_group_keys in Hk as (r & Hr & [= Hy]). eauto.
  - rewrite concat_groupby.
    induction df as [|r l IH]; [reflexivity|].
    rewrite filter_cons, decide_True by eauto. by rewrite IH.
Qed.

(** ** The values offered for selection *)

Section unique_facts.
Context {A : Type} `{EqDecision A}.

Lemma elem_of_unique_from (seen l : list A) (x : A) :
  x ∈ DataManager.unique_from seen l ↔ x ∈ l ∧ x ∉ seen.
Proof.
  revert seen. induction l as [|y l IH]; intros seen; simpl.
  - split; [by intros ?%not_elem_of_nil | by intros [?%not_elem_of_nil _]].
  - destruct (decide (y ∈ seen)) as [Hy|Hy].
    + rewrite IH, elem_of_cons. split; [tauto|]. intros [[->|?] ?]; tauto.
    + rewrite !elem_of_cons, IH, elem_of_cons. split.
      * intros [->|[? ?]]; [tauto|]. tauto.
      * intros [[->|?] ?]; [tauto|]. destruct (decide (x = y)); tauto.
Qed.

Lemma NoDup_unique_from (seen l : list A) : NoDup (DataManager.unique_from seen l).
Proof.
  revert seen. induction l as [|y l IH]; intros seen; simpl; [constructor|].
  destruct (decide (y ∈ seen)); [apply IH|].
  apply NoDup_cons. split; [|apply IH].
  rewrite elem_of_unique_from, elem_of_cons. tauto.
Qed.

Lemma elem_of_unique (l : list A) (x : A) : x ∈ DataManager.unique l ↔ x ∈ l.
Proof.
  unfold DataManager.unique. rewrite elem_of_unique_from.
  split; [tauto|]. intros ?. split; [done | apply not_elem_of_nil].
Qed.

Lemma NoDup_unique (l : list A) : NoDup (DataManager.unique l).
Proof. apply NoDup_unique_from. Qed.
End unique_facts.

Section sort_keys_sorted.
Context {K : Type}.
Variable leb : K → K → bool.
Hypothesis leb_total : ∀ a b, leb a b = true ∨ leb b a = true.

Lemma insert_sorted_Sorted (k : K) (ks : list K) :
  Sorted (λ a b, leb a b = true) ks →
  Sorted (λ a b, leb a b = true) (insert_sorted leb k ks).
Proof.
  induction 1 as [|h t Ht IH Hhd]; simpl; [by repeat constructor|].
  destruct (leb k h) eqn:Hkh.
  - constructor; [by constructor | by constructor].
  - constructor; [exact IH|].
    assert (leb h k = true) as Hhk by (destruct (leb_total k h); congruence).
    destruct Hhd as [|h' t' Hh']; simpl; [by constructor|].
    destruct (leb k h'); by constructor.
Qed.

(** The keys come out in ascending order. *)
Lemma sort_keys_Sorted (ks : list K) :
  Sorted (λ a b, leb a b = true) (sort_keys leb ks).
Proof.
  induction ks as [|k ks IH]; simpl; [constructor | by apply insert_sorted_Sorted].
Qed.
End sort_keys_sorted.

Lemma str_leb_total (a b : string) :
  DataManager.str_leb a b = true ∨ DataManager.str_leb b a = true.
Proof.
  unfold DataManager.str_leb, Py.le_of.
  destruct (String.leb_total a b) as [Hab|Hba]; [left | right].
  - unfold String.leb in Hab. by destruct (String.compare a b).
  - unfold String.leb in Hba. by destruct (String.compare b a).
Qed.

Lemma elem_of_sorted (l : list string) (x : string) :
  x ∈ DataManager.sorted l ↔ x ∈ l.
Proof. unfold DataManager.sorted. by rewrite sort_keys_perm. Qed.

Lemma str_not_Alltime_label (y : Z) : Py.str y ≠ "Alltime".
Proof.
  destruct y as [|p|p].
  - discriminate.
  - intros Heq. pose proof (str_digits (Z.pos p) ltac:(lia)) as Hd.
    rewrite Heq in Hd. discriminate Hd.
  - discriminate.
Qed.

(** X12.  The years offered for selection are ["Alltime"] followed by the
    decimal texts of the years that occur in the table: each once, in
    ascending text order, and none of them is ["Alltime"] itself. *)
Theorem get_unique_year_values_spec (data : list Canon.row) :
  ∃ years,
    DataManager._get_unique_year_values data = "Alltime" :: years
    ∧ NoDup ("Alltime" :: years)
    ∧ Sorted (λ a b, DataManager.str_leb a b = true) years
    ∧ ∀ y, y ∈ years ↔ ∃ r, r ∈ data ∧ y = Py.str (Canon.Year_of_statistics r).
Proof.
  eexists. split; [reflexivity|].
  assert (∀ y, y ∈ DataManager.sorted
                     (DataManager.unique
                        (map (λ r, Py.str (Canon.Year_of_statistics r)) data))
               ↔ ∃ r, r ∈ data ∧ y = Py.str (Canon.Year_of_statistics r)) as Helem.
  { intros y. rewrite elem_of_sorted, elem_of_unique, list_elem_of_fmap.
    split; intros (r & ? & ?); eauto. }
  split; [|split; [apply sort_keys_Sorted, str_leb_total | exact Helem]].
  apply NoDup_cons. split.
  - intros (r & _ & Hr)%Helem. symmetry in Hr. by apply str_not_Alltime_label in Hr.
  - unfold DataManager.sorted. rewrite sort_keys_perm. apply NoDup_unique.
Qed.



(** X14.  The provinces offered for selection are ["Netherlands"] and
    ["All provinces"] followed by the provinces that occur in the table: each
    once, in ascending text order; rows without a province add nothing. *)
Theorem get_unique_province_values_spec (data : list Canon.row) :
  ∃ provinces,
    DataManager._get_unique_province_values data
    = "Netherlands" :: "All provinces" :: provinces
    ∧ NoDup provinces
    ∧ Sorted (λ a b, DataManager.str_leb a b = true) provinces
    ∧ ∀ p, p ∈ provinces ↔ ∃ r, r ∈ data ∧ Canon.Province r = Some p.
Proof.
  eexists. split; [reflexivity|]. split; [|split].
  - unfold DataManager.sorted. rewrite sort_keys_perm. apply NoDup_unique.
  - apply sort_keys_Sorted, str_leb_total.
  - intros p. rewrite elem_of_sorted, elem_of_unique. apply list_elem_of_omap.
Qed.

(** X15.  Every province offered for selection gives a result on the
    all-time file of the same table: [filter_data] returns without a notice,
    and its result has rows unless the table itself is empty. *)
Theorem unique_province_values_filter (fs : gmap string (list Canon.row))
    (data : list Canon.row) (p : string) :
  fs !! DataManager.csv_path "alltime" = Some data →
  p ∈ DataManager._get_unique_province_values data →
  ∃ df, DataManager.filter_data fs "Alltime" p = Outcome [] (inr df)
        ∧ (data ≠ [] → df ≠ [])
        ∧ ∀ r, r ∈ df → r ∈ data.
Proof.
  intros Hfile Hp.
  assert (DataManager.pull_data fs (Py.lower "Alltime") = Outcome [] (inr data))
    as Hpull by (by apply pull_data_found).
  unfold DataManager.filter_data. rewrite Hpull. simpl.
  destruct (decide (p ∈ ["Netherlands"; "All provinces"])) as [Hpseudo|Hpseudo].
  - rewrite bool_decide_eq_true_2 by done. exists data. done.
  - rewrite bool_decide_eq_false_2 by done. eexists. split; [reflexivity|].
    split; [|intros r Hr; by apply list_elem_of_filter in Hr as [_ ?]].
    intros _. unfold DataManager._get_unique_province_values in Hp.
    apply elem_of_app in Hp as [Hp|Hp]; [done|].
    rewrite elem_of_sorted, elem_of_unique in Hp.
    apply list_elem_of_omap in Hp as (r & Hr & Hrp).
    intros Hnil. assert (r ∈ filter (λ r, Canon.Province r = Some p) data) as Hin
      by (by apply list_elem_of_filter).
    rewrite Hnil in Hin. by apply not_elem_of_nil in Hin.
Qed.

Lemma unique_province_values_filter_witness :
  ∃ df, DataManager.filter_data Sample.saved_fs "Alltime" "Drenthe"
        = Outcome [] (inr df)
        ∧ (Sample.canon_df ≠ [] → df ≠ [])
        ∧ ∀ r, r ∈ df → r ∈ Sample.canon_df.
Proof.
  apply (unique_province_values_filter Sample.saved_fs Sample.canon_df "Drenthe").
  - vm_compute. reflexivity.
  - vm_compute. apply list_elem_of_further, list_elem_of_further, list_elem_of_here.
Defined.

(** ** The refresh *)

Lemma set_unique_values_found (fs : gmap string (list Canon.row))
    (data : list Canon.row) :
  fs !! DataManager.csv_path "alltime" = Some data →
  DataManager._set_unique_values fs
  = Outcome [] (inr (DataManager.UniqueValues
                       (DataManager._get_unique_province_values data)
                       (DataManager._get_unique_year_values data))).
Proof.
  intros Hfile. unfold DataManager._set_unique_values.
  by rewrite (pull_data_found fs "Alltime" data Hfile).
Qed.

(** X16.  When the all-time file exists and is less than seven days old, the
    constructor downloads nothing and raises nothing, whether or not there is
    a connection: the folder is left as it is and the lists for selection are
    read from the existing all-time file. *)
Theorem init_fresh (fs : gmap string (list Canon.row)) (file_age : Z)
    (online : bool) (read_case_csv : string → option (list Case.row))
    (read_hospital_csv : string → option (list Hosp.row)) (data : list Canon.row) :
  fs !! DataManager.csv_path "alltime" = Some data →
  file_age < DataManager.timedelta_days 7 →
  DataManager._refresh_covid_data fs file_age online read_case_csv read_hospital_csv
  = inr fs
  ∧ DataManager.__init__ fs file_age online read_case_csv read_hospital_csv
    = inr (fs, Outcome [] (inr (DataManager.UniqueValues
                                  (DataManager._get_unique_province_values data)
                                  (DataManager._get_unique_year_values data)))).
Proof.
  intros Hfile Hage.
  assert (DataManager._refresh_covid_data fs file_age online read_case_csv
            read_hospital_csv = inr fs) as Hrefresh.
  { unfold DataManager._refresh_covid_data.
    rewrite bool_decide_eq_true_2 by (rewrite Hfile; eauto).
    destruct (Z.ltb_spec file_age
                (DataManager.timedelta_days DataManager.MAX_DAYS_DATA_OUTDATED));
      [reflexivity|].
    unfold DataManager.MAX_DAYS_DATA_OUTDATED in *. lia. }
  split; [exact Hrefresh|]. unfold DataManager.__init__.
  by rewrite Hrefresh, (set_unique_values_found fs data Hfile).
Qed.

Lemma init_fresh_witness :
  DataManager._refresh_covid_data Sample.saved_fs (DataManager.timedelta_days 3)
    false Sample.read_nothing Sample.read_nothing = inr Sample.saved_fs
  ∧ DataManager.__init__ Sample.saved_fs (DataManager.timedelta_days 3) false
      Sample.read_nothing Sample.read_nothing
    = inr (Sample.saved_fs,
           Outcome []
             (inr (DataManager.UniqueValues
                     (DataManager._get_unique_province_values Sample.canon_df)
                     (DataManager._get_unique_year_values Sample.canon_df)))).
Proof.
  apply (init_fresh Sample.saved_fs (DataManager.timedelta_days 3) false
           Sample.read_nothing Sample.read_nothing Sample.canon_df).
  - vm_compute. reflexivity.
  - vm_compute. reflexivity.
Defined.

(** X17.  When the all-time file is missing, or seven days old or older, and
    there is no connection, the refresh raises [ConnectionError] and the
    constructor with it; nothing is downloaded. *)
Theorem refresh_covid_data_offline (fs : gmap string (list Canon.row))
    (file_age : Z) (read_case_csv : string → option (list Case.row))
    (read_hospital_csv : string → option (list Hosp.row)) :
  fs !! DataManager.csv_path "alltime" = None
  ∨ DataManager.timedelta_days 7 <= file_age →
  DataManager._refresh_covid_data fs file_age false read_case_csv read_hospital_csv
  = inl (DataManager.ConnectionError
           "No internet connection and data is outdated or missing")
  ∧ DataManager.__init__ fs file_age false read_case_csv read_hospital_csv
    = inl (DataManager.ConnectionError
             "No internet connection and data is outdated or missing").
Proof.
  intros Hstale.
  assert (DataManager._refresh_covid_data fs file_age false read_case_csv
            read_hospital_csv
          = inl (DataManager.ConnectionError
                   "No internet connection and data is outdated or missing"))
    as Hrefresh.
  { unfold DataManager._refresh_covid_data. destruct Hstale as [Hmissing|Hold].
    - rewrite bool_decide_eq_false_2; [reflexivity|].
      rewrite Hmissing. by intros [? ?].
    - destruct (Z.ltb_spec file_age
                  (DataManager.timedelta_days DataManager.MAX_DAYS_DATA_OUTDATED));
        [unfold DataManager.MAX_DAYS_DATA_OUTDATED in *; lia|].
      by rewrite andb_false_r. }
  split; [exact Hrefresh|]. unfold DataManager.__init__. by rewrite Hrefresh.
Qed.

Lemma refresh_covid_data_offline_witness :
  DataManager._refresh_covid_data Sample.saved_fs (DataManager.timedelta_days 7)
    false Sample.read_case_csv Sample.read_hospital_csv
  = inl (DataManager.ConnectionError
           "No internet connection and data is outdated or missing")
  ∧ DataManager.__init__ Sample.saved_fs (DataManager.timedelta_days 7) false
      Sample.read_case_csv Sample.read_hospital_csv
    = inl (DataManager.ConnectionError
             "No internet connection and data is outdated or missing").
Proof.
  apply (refresh_covid_data_offline Sample.saved_fs (DataManager.timedelta_days 7)
           Sample.read_case_csv Sample.read_hospital_csv).
  right. vm_compute. discriminate.
Defined.

(** X18.  When the all-time file is missing or outdated and there is a
    connection, the constructor downloads the two files of each dataset,
    concatenates them in the order of the URLs, repairs the case table,
    merges, normalizes and saves; the lists for selection are those of the
    table it saved. *)
Theorem init_download (fs : gmap string (list Canon.row)) (file_age : Z)
    (read_case_csv : string → option (list Case.row))
    (read_hospital_csv : string → option (list Hosp.row))
    (case_new case_old : list Case.row) (hospital_new hospital_old : list Hosp.row) :
  fs !! DataManager.csv_path "alltime" = None
  ∨ DataManager.timedelta_days 7 <= file_age →
  read_case_csv
    "https://data.rivm.nl/covid-19/COVID-19_aantallen_gemeente_per_dag.csv"
  = Some case_new →
  read_case_csv
    "https://data.rivm.nl/covid-19/COVID-19_aantallen_gemeente_per_dag_tm_03102021.csv"
  = Some case_old →
  read_hospital_csv "https://data.rivm.nl/covid-19/COVID-19_ziekenhuisopnames.csv"
  = Some hospital_new →
  read_hospital_csv
    "https://data.rivm.nl/data/covid-19/COVID-19_ziekenhuisopnames_tm_03102021.csv"
  = Some hospital_old →
  DataManager.__init__ fs file_age true read_case_csv read_hospital_csv
  = inr (DataManager._save_clean_data fs
           (DataManager._clean_merged_data
              (DataManager._merge_data
                 (DataManager._clean_case_data (case_new ++ case_old))
                 (hospital_new ++ hospital_old))),
         Outcome []
           (inr (DataManager.UniqueValues
                   (DataManager._get_unique_province_values
                      (DataManager._clean_merged_data
                         (DataManager._merge_data
                            (DataManager._clean_case_data (case_new ++ case_old))
                            (hospital_new ++ hospital_old))))
                   (DataManager._get_unique_year_values
                      (DataManager._clean_merged_data
                         (DataManager._merge_data
                            (DataManager._clean_case_data (case_new ++ case_old))
                            (hospital_new ++ hospital_old))))))).
Proof.
  intros Hstale Hc1 Hc2 Hh1 Hh2.
  set (table := DataManager._clean_merged_data
                  (DataManager._merge_data
                     (DataManager._clean_case_data (case_new ++ case_old))
                     (hospital_new ++ hospital_old))).
  assert (DataManager._refresh_covid_data fs file_age true read_case_csv
            read_hospital_csv = inr (DataManager._save_clean_data fs table))
    as Hrefresh.
  { unfold DataManager._refresh_covid_data.
    assert (bool_decide (is_Some (fs !! DataManager.csv_path "alltime"))
            && (file_age <? DataManager.timedelta_days
                              DataManager.MAX_DAYS_DATA_OUTDATED) = false) as ->.
    { destruct Hstale as [Hmissing|Hold].
      - rewrite bool_decide_eq_false_2; [reflexivity|].
        rewrite Hmissing. by intros [? ?].
      - destruct (Z.ltb_spec file_age
                    (DataManager.timedelta_days DataManager.MAX_DAYS_DATA_OUTDATED));
          [unfold DataManager.MAX_DAYS_DATA_OUTDATED in *; lia|].
        by rewrite andb_false_r. }
    unfold DataManager._read_and_save_data_from_web,
      DataManager._read_and_concat_data. simpl.
    rewrite Hc1, Hc2, Hh1, Hh2. simpl. by rewrite !app_nil_r. }
  unfold DataManager.__init__. rewrite Hrefresh. f_equal. f_equal.
  apply set_unique_values_found.
  unfold DataManager._save_clean_data, DataManager.to_csv. apply lookup_insert_eq.
Qed.

Lemma init_download_witness :
  ∃ fs lists,
    DataManager.__init__ ∅ 0 true Sample.read_case_csv Sample.read_hospital_csv
    = inr (fs, Outcome [] (inr lists))
    ∧ DataManager.unique_year_values lists = ["Alltime"; "2022"]
    ∧ DataManager.unique_province_values lists
      = ["Netherlands"; "All provinces"; "Zuid-Holland"].
Proof.
  eexists _, _. split.
  - apply (init_download ∅ 0 Sample.read_case_csv Sample.read_hospital_csv
             [Sample.rotterdam; Sample.schiedam] []
             [Sample.hosp_row "GM0599" (Date 2022 1 5) 4] []).
    + left. reflexivity.
    + reflexivity.
    + reflexivity.
    + reflexivity.
    + reflexivity.
  - split; vm_compute; reflexivity.
Defined.

Lemma read_all_failure {A : Type} (read_csv_url : string → option (list A))
    (urls : list string) :
  (∃ url, url ∈ urls ∧ read_csv_url url = None) →
  ∃ url, url ∈ urls ∧ read_csv_url url = None
         ∧ DataManager.read_all read_csv_url urls = inl (DataManager.FetchError url).
Proof.
  induction urls as [|u us IH]; intros (url & Hin & Hnone).
  - by apply not_elem_of_nil in Hin.
  - simpl. destruct (read_csv_url u) as [df|] eqn:Hu.
    + apply elem_of_cons in Hin as [->|Hin]; [congruence|].
      destruct IH as (url' & Hin' & Hnone' & ->); [eauto|].
      exists url'. split; [by right | done].
    + exists u. split; [by left | done].
Qed.

Lemma read_all_inl {A : Type} (read_csv_url : string → option (list A))
    (urls : list string) (e : DataManager.refresh_exn) :
  DataManager.read_all read_csv_url urls = inl e →
  ∃ url, url ∈ urls ∧ read_csv_url url = None ∧ e = DataManager.FetchError url.
Proof.
  induction urls as [|u us IH]; simpl; [discriminate|].
  destruct (read_csv_url u) as [df|] eqn:Hu.
  - destruct (DataManager.read_all read_csv_url us) as [e'|dfs]; [|discriminate].
    intros [= <-]. destruct (IH eq_refl) as (url & ? & ? & ?).
    exists url. split; [by right | done].
  - intros [= <-]. exists u. split; [by left | done].
Qed.

(** X19.  When a download fails, of the case data or of the hospitalization
    data, the refresh raises the failure of a URL that cannot be read and
    returns no folder: the files are written only after every download has
    succeeded. *)
Theorem read_and_save_fetch_failure (fs : gmap string (list Canon.row))
    (read_case_csv : string → option (list Case.row))
    (read_hospital_csv : string → option (list Hosp.row)) :
  (∃ url,
     url ∈ ["https://data.rivm.nl/covid-19/COVID-19_aantallen_gemeente_per_dag.csv";
            "https://data.rivm.nl/covid-19/COVID-19_aantallen_gemeente_per_dag_tm_03102021.csv"]
     ∧ read_case_csv url = None)
  ∨ (∃ url,
       url ∈ ["https://data.rivm.nl/covid-19/COVID-19_ziekenhuisopnames.csv";
              "https://data.rivm.nl/data/covid-19/COVID-19_ziekenhuisopnames_tm_03102021.csv"]
       ∧ read_hospital_csv url = None) →
  ∃ failed,
    (read_case_csv failed = None ∨ read_hospital_csv failed = None)
    ∧ DataManager._read_and_save_data_from_web fs read_case_csv read_hospital_csv
      = inl (DataManager.FetchError failed).
Proof.
  intros Hfail.
  unfold DataManager._read_and_save_data_from_web, DataManager._read_and_concat_data.
  change (DataManager.lookup_urls "covid_cases" DataManager.DATA_URLS)
    with (Some ["https://data.rivm.nl/covid-19/COVID-19_aantallen_gemeente_per_dag.csv";
                "https://data.rivm.nl/covid-19/COVID-19_aantallen_gemeente_per_dag_tm_03102021.csv"]).
  change (DataManager.lookup_urls "covid_hospitalizations" DataManager.DATA_URLS)
    with (Some ["https://data.rivm.nl/covid-19/COVID-19_ziekenhuisopnames.csv";
                "https://data.rivm.nl/data/covid-19/COVID-19_ziekenhuisopnames_tm_03102021.csv"]).
  cbv beta iota.
  destruct (DataManager.read_all read_case_csv _) as [e|cases] eqn:Hcases.
  - destruct (read_all_inl _ _ _ Hcases) as (failed & _ & Hnone & ->).
    exists failed. split; [by left | done].
  - destruct Hfail as [Hcase|Hhosp].
    + destruct (read_all_failure read_case_csv _ Hcase) as (? & _ & _ & Heq).
      rewrite Heq in Hcases. discriminate Hcases.
    + destruct (read_all_failure read_hospital_csv _ Hhosp)
        as (failed & _ & Hnone & ->).
      exists failed. split; [by right | done].
Qed.

Lemma read_and_save_fetch_failure_witness :
  ∃ failed,
    (Sample.read_case_csv failed = None
     ∨ @Sample.read_nothing Hosp.row failed = None)
    ∧ DataManager._read_and_save_data_from_web ∅ Sample.read_case_csv
        Sample.read_nothing
      = inl (DataManager.FetchError failed).
Proof.
  apply (read_and_save_fetch_failure ∅ Sample.read_case_csv Sample.read_nothing).
  right. exists "https://data.rivm.nl/covid-19/COVID-19_ziekenhuisopnames.csv".
  split; [apply list_elem_of_here | reflexivity].
Defined.

(** ** Aggregation, continued *)

Lemma cell_leb_total (a b : cell) : cell_leb a b = true ∨ cell_leb b a = true.
Proof.
  destruct a as [x|x], b as [y|y]; simpl; [|by left|by right|].
  - destruct (Z.leb_spec x y); [by left|]. right. apply Z.leb_le. lia.
  - apply str_leb_total.
Qed.

(** X20.  The rows of an aggregated view come in ascending order of the
    grouping value, each value once; in a view by month the values are month
    numbers in strictly increasing order. *)
Theorem aggregate_data_sorted (df : list Canon.row) (ms : list metric)
    (d : dimension) :
  Sorted (λ a b, cell_leb a b = true)
    (map agg_key (DataManager.aggregate_data df ms d))
  ∧ NoDup (map agg_key (DataManager.aggregate_data df ms d))
  ∧ (d = Month_of_statistics →
     ∃ months,
       map agg_key (DataManager.aggregate_data df ms d) = map CInt months
       ∧ Sorted Z.lt months
       ∧ ∀ n, n ∈ months ↔ ∃ r, r ∈ df ∧ Canon.Month_of_statistics r = n).
Proof.
  rewrite map_agg_key.
  pose proof (sort_keys_Sorted cell_leb cell_leb_total
                (remove_dups (omap (dimension_cell d) df))) as Hsorted.
  pose proof (group_keys_NoDup (dimension_cell d) cell_leb df) as Hnd.
  pose proof (elem_of_group_keys (dimension_cell d) cell_leb df) as Helem.
  fold (group_keys (dimension_cell d) cell_leb df) in Hsorted.
  split; [exact Hsorted|]. split; [exact Hnd|]. intros ->.
  remember (group_keys (dimension_cell Month_of_statistics) cell_leb df) as keys
    eqn:Ekeys.
  clear Ekeys.
  assert (∀ c, c ∈ keys → ∃ n, c = CInt n) as Hint.
  { intros c (r & _ & Hr)%Helem. simpl in Hr. injection Hr as <-. eauto. }
  exists (omap (λ c, match c with CInt n => Some n | CStr _ => None end) keys).
  split; [|split].
  - clear Hsorted Hnd Helem. induction keys as [|c keys IH]; [reflexivity|].
    destruct (Hint c) as [n ->]; [by left|]. simpl. f_equal.
    apply IH. intros c' ?. apply Hint. by right.
  - clear Helem. induction Hsorted as [|c keys Hs IH Hhd]; [constructor|].
    destruct (Hint c) as [n ->]; [by left|]. simpl.
    apply NoDup_cons in Hnd as [Hc Hnd].
    constructor; [apply IH; [done|]; intros c' ?; apply Hint; by right|].
    destruct Hhd as [|c' keys' Hle]; [constructor|].
    destruct (Hint c') as [n' ->]; [right; by left|]. simpl. constructor.
    simpl in Hle. apply Z.leb_le in Hle.
    assert (n ≠ n') by (intros ->; apply Hc; by left). lia.
  - intros n. rewrite list_elem_of_omap. split.
    + intros (c & Hc & Hn). destruct c as [n'|]; [|discriminate].
      injection Hn as ->. apply Helem in Hc as (r & Hr & Hkey).
      simpl in Hkey. injection Hkey as Hkey. eauto.
    + intros (r & Hr & <-). exists (CInt (Canon.Month_of_statistics r)).
      split; [|done]. apply Helem. exists r. done.
Qed.

Section constant_key.
Context {R K : Type} `{EqDecision K}.
Variable by_ : R → option K.
Variable leb : K → K → bool.

(** A frame in which every row has the same key forms one group. *)
Lemma groupby_constant (df : list R) (k : K) :
  (∀ r, r ∈ df → by_ r = Some k) →
  groupby by_ leb df = match df with [] => [] | _ => [(k, df)] end.
Proof.
  intros Hkey. destruct df as [|r0 df0] eqn:Hdf; [reflexivity|]. rewrite <- Hdf in *.
  assert (group_keys by_ leb df = [k]) as Hkeys.
  { pose proof (group_keys_NoDup by_ leb df) as Hnd.
    assert (∀ k', k' ∈ group_keys by_ leb df → k' = k) as Hall.
    { intros k' (r & Hr & Hk')%elem_of_group_keys. rewrite (Hkey r Hr) in Hk'.
      congruence. }
    assert (k ∈ group_keys by_ leb df) as Hin.
    { apply elem_of_group_keys. exists r0. split; [|apply Hkey]; rewrite Hdf; by left. }
    destruct (group_keys by_ leb df) as [|k1 [|k2 ks]].
    - by apply not_elem_of_nil in Hin.
    - f_equal. apply Hall. by left.
    - apply NoDup_cons in Hnd as [Hk1 _]. exfalso. apply Hk1.
      rewrite (Hall k1) by (by left). rewrite (Hall k2) by (right; by left). by left. }
  unfold groupby. rewrite Hkeys. simpl. f_equal. f_equal.
  unfold group_rows. clear Hdf Hkeys. induction df as [|r df IH]; [reflexivity|].
  rewrite filter_cons, decide_True by (apply Hkey; by left).
  f_equal. apply IH. intros r' ?. apply Hkey. by right.
Qed.
End constant_key.

(** X21.  The view by province of the rows [filter_data] returns for a
    province has one row, the province with the totals of the metrics over
    the returned rows, and no row when nothing was returned. *)
Theorem filter_then_aggregate_by_province (fs : gmap string (list Canon.row))
    (year province : string) (df : list Canon.row) (ms : list metric) :
  fs !! DataManager.csv_path (Py.lower year) = Some df →
  province ∉ ["Netherlands"; "All provinces"] →
  ∃ selected,
    DataManager.filter_data fs year province = Outcome [] (inr selected)
    ∧ DataManager.aggregate_data selected ms Province
      = match selected with
        | [] => []
        | _ => [AggRow (CStr province)
                  (map (λ m, (m, metric_total m selected)) ms)]
        end.
Proof.
  intros Hfile Hp.
  assert (DataManager.pull_data fs (Py.lower year) = Outcome [] (inr df)) as Hpull.
  { apply pull_data_found. by rewrite lower_idemp. }
  unfold DataManager.filter_data. rewrite Hpull. simpl.
  rewrite bool_decide_eq_false_2 by done. eexists. split; [reflexivity|].
  set (selected := filter (λ r, Canon.Province r = Some province) df).
  unfold DataManager.aggregate_data.
  rewrite (groupby_constant (dimension_cell Province) cell_leb selected (CStr province)).
  - by destruct selected.
  - intros r Hr. apply list_elem_of_filter in Hr as [Hr _]. simpl. by rewrite Hr.
Qed.

Lemma filter_then_aggregate_by_province_witness :
  ∃ selected,
    DataManager.filter_data Sample.saved_fs "2022" "Utrecht"
    = Outcome [] (inr selected)
    ∧ DataManager.aggregate_data selected [Total_reported; Deceased] Province
      = match selected with
        | [] => []
        | _ => [AggRow (CStr "Utrecht")
                  (map (λ m, (m, metric_total m selected))
                     [Total_reported; Deceased])]
        end.
Proof.
  apply (filter_then_aggregate_by_province Sample.saved_fs "2022" "Utrecht"
           [Sample.utrecht_a; Sample.drenthe_a; Sample.utrecht_b]
           [Total_reported; Deceased]).
  - vm_compute. reflexivity.
  - intros Hin. apply list_elem_of_In in Hin. simpl in Hin.
    destruct Hin as [Heq|[Heq|[]]]; discriminate Heq.
Defined.

(** X22.  The view by country of a normalized table has one row, the
    Netherlands with the totals of the metrics over the whole table, and no
    row when the table is empty. *)
Theorem aggregate_normalized_by_country (merged_df : list Merged.row)
    (ms : list metric) :
  DataManager.aggregate_data (DataManager._clean_merged_data merged_df) ms Country
  = match merged_df with
    | [] => []
    | _ => [AggRow (CStr "Netherlands")
              (map (λ m, (m, metric_total m
                               (DataManager._clean_merged_data merged_df))) ms)]
    end.
Proof.
  unfold DataManager.aggregate_data.
  rewrite (groupby_constant (dimension_cell Country) cell_leb
             (DataManager._clean_merged_data merged_df) (CStr "Netherlands")).
  - by destruct merged_df.
  - unfold DataManager._clean_merged_data.
    intros r (m & -> & _)%list_elem_of_fmap. reflexivity.
Qed.

(** ** Sorting an aggregated view *)

Lemma mapM_of_map {A B : Type} (f : A → option B) (l : list A) (k : list B) :
  map f l = map Some k → mapM f l = Some k.
Proof.
  intros Hmap. apply mapM_Some. revert k Hmap.
  induction l as [|x l IH]; intros [|y k] Hmap; try discriminate; [constructor|].
  injection Hmap as Hx Hmap. constructor; [done | by apply IH].
Qed.

(** The column of an aggregated metric has a value in every row. *)
Lemma mapM_agg_value (df : list Canon.row) (ms : list metric) (d : dimension)
    (m : metric) :
  m ∈ ms →
  mapM (agg_value m) (DataManager.aggregate_data df ms d)
  = Some (map (λ k, metric_total m (group_rows (dimension_cell d) df k))
            (group_keys (dimension_cell d) cell_leb df)).
Proof.
  intros Hm. apply mapM_of_map. rewrite map_agg_value by done.
  by rewrite map_map.
Qed.

Lemma map_agg_value_of_mapM (t : list agg_row) (m : metric) (items : list Z) :
  mapM (agg_value m) t = Some items → map (agg_value m) t = map Some items.
Proof.
  intros Hm. apply mapM_Some in Hm.
  induction Hm as [|a v t its Hav _ IH]; [reflexivity|].
  simpl. by rewrite Hav, IH.
Qed.

(** X23.  Sorting an aggregated view by one of its metrics raises nothing
    and returns the same rows rearranged, with the metric in ascending order
    when the order is ["Ascending"] and in descending order for any other
    text. *)
Theorem sort_data_ordered (argsort : list Z → list nat) (df : list Canon.row)
    (ms : list metric) (d : dimension) (sort_by : metric) (sort_order : string) :
  argsort_contract argsort →
  sort_by ∈ ms →
  ∃ sorted_df items,
    DataManager.sort_data argsort (DataManager.aggregate_data df ms d)
      sort_by sort_order = inr sorted_df
    ∧ sorted_df ≡ₚ DataManager.aggregate_data df ms d
    ∧ map (agg_value sort_by) sorted_df = map Some items
    ∧ (sort_order = "Ascending" → Sorted Z.le items)
    ∧ (sort_order ≠ "Ascending" → Sorted (flip Z.le) items).
Proof.
  intros Hcontract Hm.
  pose proof (mapM_agg_value df ms d sort_by Hm) as Hitems.
  set (view := DataManager.aggregate_data df ms d) in *.
  remember (map (λ k, metric_total sort_by (group_rows (dimension_cell d) df k))
              (group_keys (dimension_cell d) cell_leb df)) as items eqn:E.
  clear E. unfold DataManager.sort_data.
  destruct (decide (sort_order = "Ascending")) as [Hasc|Hdesc].
  - destruct (sort_values_inr argsort Hcontract view sort_by true items Hitems)
      as (Hrun & Hcol & Hperm).
    eexists _, _. split; [exact Hrun|]. split; [exact Hperm|].
    split; [by apply map_agg_value_of_mapM|]. split; [|done].
    intros _. apply Hcontract.
  - destruct (sort_values_inr argsort Hcontract view sort_by false items Hitems)
      as (Hrun & Hcol & Hperm).
    eexists _, _. split; [exact Hrun|]. split; [exact Hperm|].
    split; [by apply map_agg_value_of_mapM|]. split; [done|].
    intros _. rewrite (take_nargsort_descending argsort).
    apply Sorted_reverse. apply Hcontract.
Qed.

Lemma sort_data_ordered_witness :
  ∃ sorted_df items,
    DataManager.sort_data stable_argsort
      (DataManager.aggregate_data Sample.canon_df [Total_reported] Province)
      Total_reported "Descending" = inr sorted_df
    ∧ sorted_df ≡ₚ DataManager.aggregate_data Sample.canon_df [Total_reported] Province
    ∧ map (agg_value Total_reported) sorted_df = map Some items
    ∧ ("Descending" = "Ascending" → Sorted Z.le items)
    ∧ ("Descending" ≠ "Ascending" → Sorted (flip Z.le) items).
Proof.
  apply (sort_data_ordered stable_argsort Sample.canon_df [Total_reported] Province
           Total_reported "Descending").
  - apply stable_argsort_contract.
  - apply list_elem_of_here.
Defined.

(** X24.  Sorting a sorted aggregated view again by the same metric and
    order leaves the metric column as it is, and leaves the whole view as it
    is when no two rows of the view have the same value of the metric. *)
Theorem sort_data_twice (argsort : list Z → list nat) (df : list Canon.row)
    (ms : list metric) (d : dimension) (sort_by : metric) (sort_order : string) :
  argsort_contract argsort →
  sort_by ∈ ms →
  ∃ once twice,
    DataManager.sort_data argsort (DataManager.aggregate_data df ms d)
      sort_by sort_order = inr once
    ∧ DataManager.sort_data argsort once sort_by sort_order = inr twice
    ∧ map (agg_value sort_by) twice = map (agg_value sort_by) once
    ∧ (NoDup (map (agg_value sort_by) (DataManager.aggregate_data df ms d)) →
       twice = once).
Proof.
  intros Hcontract Hm.
  pose proof (mapM_agg_value df ms d sort_by Hm) as Hitems.
  assert (∃ once, DataManager.sort_data argsort (DataManager.aggregate_data df ms d)
                    sort_by sort_order = inr once) as [once Honce].
  { unfold DataManager.sort_data, DataManager.sort_values. rewrite Hitems.
    destruct (decide (sort_order = "Ascending")); eauto. }
  destruct (sort_data_again argsort Hcontract _ once sort_by sort_order Honce)
    as (twice & Htwice & _ & Hcol & Hsame).
  exists once, twice. done.
Qed.

Lemma sort_data_twice_witness :
  ∃ once twice,
    DataManager.sort_data stable_argsort
      (DataManager.aggregate_data Sample.canon_df [Total_reported] Province)
      Total_reported "Ascending" = inr once
    ∧ DataManager.sort_data stable_argsort once Total_reported "Ascending" = inr twice
    ∧ map (agg_value Total_reported) twice = map (agg_value Total_reported) once
    ∧ (NoDup (map (agg_value Total_reported)
                (DataManager.aggregate_data Sample.canon_df [Total_reported] Province)) →
       twice = once).
Proof.
  apply (sort_data_twice stable_argsort Sample.canon_df [Total_reported] Province
           Total_reported "Ascending").
  - apply stable_argsort_contract.
  - apply list_elem_of_here.
Defined.

(** ** The plots *)

Lemma filter_data_found (fs : gmap string (list Canon.row)) (year province : string)
    (df : list Canon.row) :
  fs !! DataManager.csv_path (Py.lower year) = Some df →
  DataManager.filter_data fs year province
  = Outcome []
      (inr (if bool_decide (province ∈ ["Netherlands"; "All provinces"])
            then df
            else filter (λ r, Canon.Province r = Some province) df)).
Proof.
  intros Hfile.
  assert (DataManager.pull_data fs (Py.lower year) = Outcome [] (inr df)) as Hpull.
  { apply pull_data_found. by rewrite lower_idemp. }
  unfold DataManager.filter_data. rewrite Hpull. simpl. by destruct (bool_decide _).
Qed.

Lemma filter_data_missing (fs : gmap string (list Canon.row)) (year province : string) :
  fs !! DataManager.csv_path (Py.lower year) = None →
  DataManager.filter_data fs year province
  = Outcome ["No data found for year " +:+ Py.lower year]
      (inl (AttributeError "module 'pandas' has no attribute 'Dataframe'")).
Proof.
  intros Hfile. unfold DataManager.filter_data, DataManager.pull_data,
    DataManager.read_csv.
  rewrite lower_idemp, Hfile. reflexivity.
Qed.

(** The grouping column of the frame is the column the data is grouped on. *)
Lemma aggregate_columns_dimension (self : PlotTemplate.widget_values) :
  ∃ d, (∀ ms, PlotTemplate.aggregate_columns self ms
              = dimension_name d :: map metric_name ms)
       ∧ ∀ t ms, PlotTemplate.aggregate_data self t ms
                 = DataManager.aggregate_data t ms d.
Proof.
  unfold PlotTemplate.aggregate_columns, PlotTemplate.aggregate_data.
  destruct (bool_decide (PlotTemplate.wv_province self = "Netherlands")
            && bool_decide (PlotTemplate.wv_month self = false));
    [by exists Country|].
  destruct (PlotTemplate.wv_municipality self); [by exists Municipality_name|].
  destruct (PlotTemplate.wv_month self);
    [by exists Month_of_statistics | by exists Province].
Qed.

Lemma dimension_name_not_metric (d : dimension) (ms : list metric) :
  dimension_name d ∉ map metric_name ms.
Proof.
  intros (m & Hm & _)%list_elem_of_fmap. by destruct d, m.
Qed.

Lemma x_axis_dimension (self : PlotTemplate.widget_values) (d : dimension)
    (ms : list metric) (aggregated_data : list agg_row) :
  ∃ title_suffix,
    BarPlot.x_axis self (dimension_name d :: map metric_name ms) aggregated_data
    = Some (dimension_name d, title_suffix,
            match d with
            | Month_of_statistics => map BarPlot.map_month aggregated_data
            | _ => aggregated_data
            end).
Proof.
  assert (∀ d', bool_decide (dimension_name d' ∈ dimension_name d :: map metric_name ms)
                = bool_decide (d' = d)) as Hmem.
  { intros d'. apply bool_decide_ext. rewrite elem_of_cons. split.
    - intros [Heq|Hin]; [by destruct d', d | by apply dimension_name_not_metric in Hin].
    - intros ->. by left. }
  unfold BarPlot.x_axis.
  change "Province" with (dimension_name Province).
  change "Municipality_name" with (dimension_name Municipality_name).
  change "Month_of_statistics" with (dimension_name Month_of_statistics).
  change "Country" with (dimension_name Country).
  rewrite !Hmem. destruct d; simpl; eauto.
Qed.

Lemma agg_value_map_month (m : metric) (t : list agg_row) :
  map (agg_value m) (map BarPlot.map_month t) = map (agg_value m) t.
Proof. rewrite map_map. reflexivity. Qed.

Lemma find_metric_name (name : string) (ms : list metric) (m : metric) :
  List.find (λ m', bool_decide (metric_name m' = name)) ms = Some m → m ∈ ms.
Proof. intros Hfind. apply find_some in Hfind as [? _]. by apply list_elem_of_In. Qed.

Lemma filter_missing_nil (columns y : list string) :
  (∀ c, c ∈ y → c ∈ columns) → filter (λ c, c ∉ columns) y = [].
Proof.
  induction y as [|c y IH]; intros Hall; [reflexivity|].
  rewrite filter_cons, decide_False by (intros Hc; apply Hc, Hall; by left).
  apply IH. intros c' ?. apply Hall. by right.
Qed.

Lemma DataFrame_plot_columns (d : dimension) (ms : list metric)
    (data : list agg_row) (kind : string) (color : list string) (title : string) :
  DataFrame_plot (dimension_name d :: map metric_name ms) data kind
    (dimension_name d) (map metric_name ms) color title
  = inr (PlotCall kind (dimension_name d) (map metric_name ms) color title data).
Proof.
  unfold DataFrame_plot. rewrite bool_decide_eq_true_2 by (by left).
  rewrite filter_missing_nil; [reflexivity|].
  intros c Hc. apply list_elem_of_filter. split; [|by right].
  intros ->. by apply dimension_name_not_metric in Hc.
Qed.

(** X25.  When the file of the selected year exists and a metric is checked,
    the bar plot raises nothing on its way to the plotting backend: the x
    column is the column the data was grouped on, the columns drawn are the
    checked metrics with their colours, and sorting, if asked for, is by a
    column of the frame.  Without sorting the rows are those of the
    aggregated view, the month numbers replaced by month names in a view by
    month. *)
Theorem bar_plot_reaches_backend (argsort : list Z → list nat)
    (self : PlotTemplate.widget_values) (fs : gmap string (list Canon.row))
    (df : list Canon.row) :
  fs !! DataManager.csv_path (Py.lower (PlotTemplate.wv_year self)) = Some df →
  BarPlot.selected_metrics self ≠ [] →
  ∃ call d selected,
    BarPlot.plot argsort self fs = ([], inr (Some call))
    ∧ DataManager.filter_data fs (PlotTemplate.wv_year self)
        (PlotTemplate.wv_province self) = Outcome [] (inr selected)
    ∧ (∀ t ms, PlotTemplate.aggregate_data self t ms
               = DataManager.aggregate_data t ms d)
    ∧ call_kind call = "bar"
    ∧ call_x call = dimension_name d
    ∧ call_y call = map metric_name (BarPlot.selected_metrics self)
    ∧ call_color call = map BarPlot.metric_colors (BarPlot.selected_metrics self)
    ∧ (PlotTemplate.wv_sort_data self = false →
       call_data call
       = match d with
         | Month_of_statistics =>
             map BarPlot.map_month
               (DataManager.aggregate_data selected (BarPlot.selected_metrics self) d)
         | _ => DataManager.aggregate_data selected (BarPlot.selected_metrics self) d
         end).
Proof.
  intros Hfile Hmetrics.
  destruct (aggregate_columns_dimension self) as (d & Hcolumns & Hagg).
  unfold BarPlot.plot, PlotTemplate.pull_and_filter_data.
  rewrite (filter_data_found fs _ (PlotTemplate.wv_province self) df Hfile).
  set (selected := if bool_decide (PlotTemplate.wv_province self
                                   ∈ ["Netherlands"; "All provinces"])
                   then df
                   else filter (λ r, Canon.Province r
                                     = Some (PlotTemplate.wv_province self)) df).
  cbn [result printed].
  set (ms := BarPlot.selected_metrics self) in *.
  rewrite Hcolumns, Hagg.
  destruct (x_axis_dimension self d ms (DataManager.aggregate_data selected ms d))
    as (suffix & Haxis).
  destruct ms as [|m0 ms0] eqn:Hms; [done|]. rewrite <- Hms in *. rewrite Haxis.
  set (data := match d with
               | Month_of_statistics =>
                   map BarPlot.map_month (DataManager.aggregate_data selected ms d)
               | _ => DataManager.aggregate_data selected ms d
               end).
  assert (∀ m, m ∈ ms → ∃ items, mapM (agg_value m) data = Some items) as Hcol.
  { intros m Hm. eexists. apply mapM_of_map. subst data.
    destruct d; rewrite ?agg_value_map_month, map_agg_value by done;
      by rewrite <- map_map. }
  assert (∃ sorted_data,
            match List.find (λ m, bool_decide (metric_name m
                                              = PlotTemplate.wv_sort_by self)) ms with
            | Some sort_by =>
                if PlotTemplate.wv_sort_data self
                then DataManager.sort_data argsort data sort_by
                       (PlotTemplate.wv_sort_order self)
                else inr data
            | None => inr data
            end = inr sorted_data
            ∧ (PlotTemplate.wv_sort_data self = false → sorted_data = data))
    as (sorted_data & -> & Hunsorted).
  { destruct (List.find _ ms) as [m|] eqn:Hfind; [|by exists data].
    destruct (PlotTemplate.wv_sort_data self); [|by exists data].
    destruct (Hcol m (find_metric_name _ _ _ Hfind)) as [items Hitems].
    unfold DataManager.sort_data, DataManager.sort_values. rewrite Hitems.
    destruct (decide _); eexists; (split; [reflexivity | discriminate]). }
  rewrite DataFrame_plot_columns.
  eexists _, d, selected. split; [reflexivity|]. simpl.
  repeat (split; [done|]). exact Hunsorted.
Qed.

Lemma bar_plot_reaches_backend_witness :
  ∃ call, BarPlot.plot stable_argsort Sample.widgets_utrecht Sample.saved_fs
          = ([], inr (Some call))
          ∧ call_x call = "Province"
          ∧ call_y call = ["Total_reported"; "Hospital_admission"; "Deceased"].
Proof.
  destruct (bar_plot_reaches_backend stable_argsort Sample.widgets_utrecht
              Sample.saved_fs [Sample.utrecht_a; Sample.drenthe_a; Sample.utrecht_b])
    as (call & d & selected & Hplot & _ & Hd & _ & Hx & Hy & _).
  - vm_compute. reflexivity.
  - discriminate.
  - exists call. split; [exact Hplot|]. split; [|exact Hy].
    rewrite Hx.
    destruct d; try reflexivity;
      specialize (Hd [Sample.utrecht_b] [Total_reported]); vm_compute in Hd;
      discriminate Hd.
Defined.

(** X26.  When the file of the selected year is missing, the bar plot and
    the line plot raise the [AttributeError] of the query layer after its
    notice, whatever is checked: the data are loaded before the plots look at
    the metrics, so this holds even when no metric is checked. *)
Theorem plot_missing_year (argsort : list Z → list nat)
    (self : PlotTemplate.widget_values) (fs : gmap string (list Canon.row)) :
  fs !! DataManager.csv_path (Py.lower (PlotTemplate.wv_year self)) = None →
  BarPlot.plot argsort self fs
  = (["No data found for year " +:+ Py.lower (PlotTemplate.wv_year self)],
     inl (Raised (AttributeError "module 'pandas' has no attribute 'Dataframe'")))
  ∧ LinePlot.plot self fs
    = (["No data found for year " +:+ Py.lower (PlotTemplate.wv_year self)],
       inl (Raised (AttributeError "module 'pandas' has no attribute 'Dataframe'"))).
Proof.
  intros Hfile.
  unfold BarPlot.plot, LinePlot.plot, PlotTemplate.pull_and_filter_data.
  rewrite (filter_data_missing fs _ (PlotTemplate.wv_province self) Hfile).
  split; reflexivity.
Qed.

Lemma plot_missing_year_witness :
  BarPlot.plot stable_argsort Sample.widgets_2099 Sample.saved_fs
  = (["No data found for year 2099"],
     inl (Raised (AttributeError "module 'pandas' has no attribute 'Dataframe'")))
  ∧ LinePlot.plot Sample.widgets_2099 Sample.saved_fs
    = (["No data found for year 2099"],
       inl (Raised (AttributeError "module 'pandas' has no attribute 'Dataframe'"))).
Proof.
  apply (plot_missing_year stable_argsort Sample.widgets_2099 Sample.saved_fs).
  vm_compute. reflexivity.
Defined.



(** X28.  The month names: the numbers 1 to 12 are exactly the numbers that
    do not map to ["Invalid Month"], and they map to twelve different
    names; the month of every normalized record of a valid date has a proper
    name. *)
Theorem month_mapping_spec :
  (∀ n, 1 <= n <= 12 ↔ BarPlot.month_mapping n ≠ "Invalid Month")
  ∧ (∀ a b, 1 <= a <= 12 → 1 <= b <= 12 →
            BarPlot.month_mapping a = BarPlot.month_mapping b → a = b)
  ∧ ∀ m, Calendar.valid (Merged.Date_of_statistics m) →
         BarPlot.month_mapping
           (Canon.Month_of_statistics (DataManager.clean_merged_row m))
         ≠ "Invalid Month".
Proof.
  assert (∀ n, 1 <= n <= 12 → BarPlot.month_mapping n ≠ "Invalid Month") as Hproper.
  { intros n Hn.
    assert (n = 1 ∨ n = 2 ∨ n = 3 ∨ n = 4 ∨ n = 5 ∨ n = 6 ∨ n = 7 ∨ n = 8
            ∨ n = 9 ∨ n = 10 ∨ n = 11 ∨ n = 12) as Hcases by lia.
    repeat (destruct Hcases as [->|Hcases]); try subst n; discriminate. }
  split; [|split].
  - intros n. split; [apply Hproper|]. intros Hname.
    destruct (decide (1 <= n <= 12)) as [|Hout]; [done|]. exfalso. apply Hname.
    unfold BarPlot.month_mapping.
    destruct n as [|p|p]; [reflexivity| |reflexivity].
    do 4 (destruct p as [p|p|]; try reflexivity; try lia).
  - intros a b Ha Hb.
    assert (a = 1 ∨ a = 2 ∨ a = 3 ∨ a = 4 ∨ a = 5 ∨ a = 6 ∨ a = 7 ∨ a = 8
            ∨ a = 9 ∨ a = 10 ∨ a = 11 ∨ a = 12) as Hca by lia.
    assert (b = 1 ∨ b = 2 ∨ b = 3 ∨ b = 4 ∨ b = 5 ∨ b = 6 ∨ b = 7 ∨ b = 8
            ∨ b = 9 ∨ b = 10 ∨ b = 11 ∨ b = 12) as Hcb by lia.
    repeat (destruct Hca as [->|Hca]); try subst a;
      repeat (destruct Hcb as [->|Hcb]); try subst b;
      first [reflexivity | discriminate].
  - intros m [Hmonth _]. by apply Hproper.
Qed.
